(** * lido-council-daemon: SecurityService, ProviderHealthIndicator, Configuration

    A shallow embedding of
    - [SecurityService] (the DSM / StakingRouter facade of the daemon),
    - [ProviderHealthIndicator] (the block-freshness health probe),
    - the [Configuration] interface and the environment of the
      [council_daemon] container,
    and the properties of them that the specification states.

    Sources: [SecurityService] and [ProviderHealthIndicator] are the second
    and third module of src/provider/provider.service.spec.ts, the
    [Configuration] interface is src/common/config/configuration.ts, the
    container environments are those of the compose file.  The wallet, the
    provider, the contract repository, the logger, the metric counter and
    the ethers objects are collaborators: their answers are inputs.  The
    [OneAtTime] decorator and the block loop are not among the sources; they
    are modelled from the specification and marked as such.

    The TypeScript methods are [async] functions over injected services.
    They are embedded as programs of a small free monad [prog]: a
    synchronous operation on an in-process object (logger, metric counter,
    the service's own fields, the clock) is a [Do] node, every [await] of a
    promise of a collaborator (contract, transaction, wallet, provider) is
    an [Await] node whose continuation receives the settled promise
    (fulfilled or rejected).  [run] executes a program to completion against
    an environment that decides how each promise settles; [advance] executes
    it up to its next [await], which is what the scheduler of the
    single-threaded runtime does. *)

From Stdlib Require Import String ZArith List Bool Lia.
From ExtLib Require Import Structures.Monad Structures.MonadExc.
Import ListNotations.
Import MonadNotation.
Local Open Scope string_scope.
Local Open Scope list_scope.
Local Open Scope Z_scope.
Local Open Scope monad_scope.

(** ** Values exchanged with the collaborators *)

(** [BlockTag] of the provider module: a tag name or a block number. *)
Inductive BlockTag : Type :=
| TagName (name : string)
| TagNumber (number : Z).

(** The JSON-RPC provider injected in [ProviderService]. *)
Record Provider : Type := { provider_url : string }.

(** An ethers [Wallet]: [connect] returns a copy bound to a provider. *)
Record Wallet : Type := {
  wallet_address : string;
  wallet_provider : option Provider
}.

Definition Wallet_connect (w : Wallet) (p : Provider) : Wallet :=
  {| wallet_address := wallet_address w; wallet_provider := Some p |}.

(** A typed contract handle ([SecurityAbi], the StakingRouter ABI):
    [connect] returns a copy that sends through the given signer. *)
Record Contract : Type := {
  contract_address : string;
  contract_signer : option Wallet
}.

Definition Contract_connect (c : Contract) (signer : Wallet) : Contract :=
  {| contract_address := contract_address c; contract_signer := Some signer |}.

(** [Signature] of @ethersproject/bytes. *)
Record Signature : Type := {
  r : string;
  s : string;
  _vs : string;
  recoveryParam : Z;
  v : Z
}.

(** The object returned by a sending contract call. *)
Record ContractTransaction : Type := { hash : string }.

Record ContractReceipt : Type := {
  transactionHash : string;
  confirmations : Z
}.

Record Block : Type := {
  block_number : Z;
  block_hash : string;
  timestamp : Z
}.

(** Argument objects of [WalletService.signDepositData] and
    [WalletService.signPauseData]. *)
Record SignDepositDataParams : Type := {
  sd_prefix : string;
  sd_depositRoot : string;
  sd_keysOpIndex : Z;
  sd_blockNumber : Z;
  sd_blockHash : string;
  sd_stakingModuleId : Z
}.

Record SignPauseDataParams : Type := {
  sp_prefix : string;
  sp_blockNumber : Z;
  sp_stakingModuleId : Z
}.

(** [HealthIndicatorResult] of @nestjs/terminus, as [getStatus] builds it:
    [{ [key]: { status, ...data } }]. *)
Inductive HealthStatus : Type := up | down.

Record HealthIndicatorResult : Type := {
  hi_key : string;
  hi_status : HealthStatus;
  hi_blockTimestamp : Z;
  hi_nowTimestamp : Z
}.

(** ** Errors and settled promises *)

Inductive JsError : Type :=
| Error (message : string)
| TypeError (message : string)
| HealthCheckError (message : string) (causes : HealthIndicatorResult).

Inductive result (A : Type) : Type :=
| Ok (a : A)
| Err (e : JsError).

Arguments Ok {A} a.
Arguments Err {A} e.

(** ** Operations *)

Inductive LogLevel : Type := level_log | level_warn | level_error.

Record LogEntry : Type := {
  log_level : LogLevel;
  log_message : string;
  log_meta : list (string * string)
}.

(** Synchronous operations on in-process objects. *)
Inductive Sync : Type -> Type :=
| LoggerWarn (message : string) (meta : list (string * string)) : Sync unit
| LoggerLog (message : string) (meta : list (string * string)) : Sync unit
| PauseAttemptsInc : Sync unit
| GetCachedAttestMessagePrefix : Sync (option string)
| SetCachedAttestMessagePrefix (value : string) : Sync unit
| GetCachedPauseMessagePrefix : Sync (option string)
| SetCachedPauseMessagePrefix (value : string) : Sync unit
| DateNow : Sync Z.

(** Promises of the collaborators; each constructor is one awaited call. *)
Inductive Async : Type -> Type :=
| GetCachedDSMContract : Async Contract
| GetCachedStakingRouterContract : Async Contract
| ATTEST_MESSAGE_PREFIX (contract : Contract) : Async string
| PAUSE_MESSAGE_PREFIX (contract : Contract) : Async string
| ContractGetMaxDeposits (contract : Contract) (blockTag : option BlockTag) : Async Z
| ContractGetGuardians (contract : Contract) (blockTag : option BlockTag)
  : Async (list string)
| GetStakingModuleIsActive (contract : Contract) (stakingModuleId : Z)
    (blockTag : option BlockTag) : Async bool
| ContractPauseDeposits (contract : Contract) (blockNumber stakingModuleId : Z)
    (sig_r sig_vs : string) : Async ContractTransaction
| TxWait (tx : ContractTransaction) (confirms : option Z) : Async ContractReceipt
| WalletSignDepositData (params : SignDepositDataParams) : Async Signature
| WalletSignPauseData (params : SignPauseDataParams) : Async Signature
| ProviderGetBlock : Async (option Block).

(** ** Programs *)

Inductive prog (R : Type) : Type :=
| Ret (value : R)
| Throw (e : JsError)
| Do {T : Type} (op : Sync T) (k : T -> prog R)
| Await {T : Type} (promise : Async T) (k : result T -> prog R).

Arguments Ret {R} value.
Arguments Throw {R} e.
Arguments Do {R T} op k.
Arguments Await {R T} promise k.

Fixpoint prog_bind {A B : Type} (p : prog A) (f : A -> prog B) : prog B :=
  match p with
  | Ret a => f a
  | Throw e => Throw e
  | Do op k => Do op (fun t => prog_bind (k t) f)
  | Await promise k => Await promise (fun t => prog_bind (k t) f)
  end.

(** [try { p } catch (error) { h error }] *)
Fixpoint try_catch {A : Type} (p : prog A) (h : JsError -> prog A) : prog A :=
  match p with
  | Ret a => Ret a
  | Throw e => h e
  | Do op k => Do op (fun t => try_catch (k t) h)
  | Await promise k => Await promise (fun t => try_catch (k t) h)
  end.

#[global] Instance Monad_prog : Monad prog :=
  {| ret := @Ret; bind := @prog_bind |}.

#[global] Instance Exception_prog : MonadExc JsError prog :=
  {| raise := @Throw; catch := @try_catch |}.

Definition call {T : Type} (op : Sync T) : prog T := Do op (fun t => Ret t).

(** [await promise]: the value of a fulfilled promise, the error of a
    rejected one thrown. *)
Definition await {T : Type} (promise : Async T) : prog T :=
  Await promise (fun settled =>
    match settled with
    | Ok t => Ret t
    | Err e => Throw e
    end).

(** ** The process state and the environment *)

(** One awaited call together with how its promise settled. *)
Inductive Event : Type :=
| Ev {T : Type} (promise : Async T) (settled : result T).

Arguments Ev {T} promise settled.

Record World : Type := {
  logged : list LogEntry;
  pauseAttempts : Z;
  cachedAttestMessagePrefix : option string;
  cachedPauseMessagePrefix : option string;
  now_ms : Z;
  awaited : list Event
}.

(** The environment settles a promise knowing every call awaited so far. *)
Definition Env : Type := list Event -> forall T : Type, Async T -> result T.

Definition log_entry (l : LogLevel) (message : string)
  (meta : list (string * string)) (w : World) : World :=
  {| logged := logged w ++ [{| log_level := l; log_message := message;
                               log_meta := meta |}];
     pauseAttempts := pauseAttempts w;
     cachedAttestMessagePrefix := cachedAttestMessagePrefix w;
     cachedPauseMessagePrefix := cachedPauseMessagePrefix w;
     now_ms := now_ms w;
     awaited := awaited w |}.

Definition inc_pauseAttempts (w : World) : World :=
  {| logged := logged w;
     pauseAttempts := pauseAttempts w + 1;
     cachedAttestMessagePrefix := cachedAttestMessagePrefix w;
     cachedPauseMessagePrefix := cachedPauseMessagePrefix w;
     now_ms := now_ms w;
     awaited := awaited w |}.

Definition set_cachedAttestMessagePrefix (value : string) (w : World) : World :=
  {| logged := logged w;
     pauseAttempts := pauseAttempts w;
     cachedAttestMessagePrefix := Some value;
     cachedPauseMessagePrefix := cachedPauseMessagePrefix w;
     now_ms := now_ms w;
     awaited := awaited w |}.

Definition set_cachedPauseMessagePrefix (value : string) (w : World) : World :=
  {| logged := logged w;
     pauseAttempts := pauseAttempts w;
     cachedAttestMessagePrefix := cachedAttestMessagePrefix w;
     cachedPauseMessagePrefix := Some value;
     now_ms := now_ms w;
     awaited := awaited w |}.

Definition record_event (e : Event) (w : World) : World :=
  {| logged := logged w;
     pauseAttempts := pauseAttempts w;
     cachedAttestMessagePrefix := cachedAttestMessagePrefix w;
     cachedPauseMessagePrefix := cachedPauseMessagePrefix w;
     now_ms := now_ms w;
     awaited := awaited w ++ [e] |}.

Definition perform {T : Type} (op : Sync T) (w : World) : World * T :=
  match op in Sync T return World * T with
  | LoggerWarn message meta => (log_entry level_warn message meta w, tt)
  | LoggerLog message meta => (log_entry level_log message meta w, tt)
  | PauseAttemptsInc => (inc_pauseAttempts w, tt)
  | GetCachedAttestMessagePrefix => (w, cachedAttestMessagePrefix w)
  | SetCachedAttestMessagePrefix value => (set_cachedAttestMessagePrefix value w, tt)
  | GetCachedPauseMessagePrefix => (w, cachedPauseMessagePrefix w)
  | SetCachedPauseMessagePrefix value => (set_cachedPauseMessagePrefix value w, tt)
  | DateNow => (w, now_ms w)
  end.

Definition settle {T : Type} (env : Env) (promise : Async T) (w : World)
  : World * result T :=
  let settled := env (awaited w) T promise in
  (record_event (Ev promise settled) w, settled).

(** Execution to completion: every promise is settled by [env] as soon as
    it is awaited. *)
Fixpoint run {R : Type} (env : Env) (p : prog R) (w : World) : World * result R :=
  match p with
  | Ret value => (w, Ok value)
  | Throw e => (w, Err e)
  | Do op k => let (w', t) := perform op w in run env (k t) w'
  | Await promise k =>
      let (w', settled) := settle env promise w in run env (k settled) w'
  end.

(** ** SecurityService *)

(** The injected services whose members are read as plain properties. *)
Record WalletService : Type := {
  wallet : Wallet;
  address : string
}.

Record ProviderService : Type := { provider : Provider }.

(** [!value] for a value of type [string | null]: [null] and the empty
    string are falsy. *)
Definition is_falsy (value : option string) : bool :=
  match value with
  | None => true
  | Some text => String.eqb text ""
  end.

(** The value of a field of type [string | null] where the method returns
    it as a [string]: at that point the field was either truthy or has just
    been assigned a string, so the [null] case is not reached. *)
Definition narrowed (value : option string) : string :=
  match value with
  | Some text => text
  | None => ""
  end.

(** [Array.prototype.indexOf] on an array of strings: the index of the
    first element strictly equal to [x], [-1] when there is none. *)
Fixpoint indexOf_from (xs : list string) (x : string) (i : Z) : Z :=
  match xs with
  | [] => -1
  | y :: ys => if String.eqb y x then i else indexOf_from ys x (i + 1)
  end.

Definition indexOf (xs : list string) (x : string) : Z := indexOf_from xs x 0.

Definition MAX_SAFE_INTEGER : Z := 9007199254740991.

(** [BigNumber.toNumber]: throws outside the safe integer range. *)
Definition BigNumber_toNumber (n : Z) : prog Z :=
  if Z.abs n <=? MAX_SAFE_INTEGER then ret n else raise (Error "overflow").

Section SecurityService.

Variable walletService : WalletService.
Variable providerService : ProviderService.

(** Returns an instance of the contract that can send signed
    transactions. *)
Definition getContractWithSigner : prog Contract :=
  let wallet := wallet walletService in
  let provider := provider providerService in
  let walletWithProvider := Wallet_connect wallet provider in
  contract <- await GetCachedDSMContract ;;
  let contractWithSigner := Contract_connect contract walletWithProvider in
  ret contractWithSigner.

(** Returns a prefix from the contract with which the deposit message
    should be signed. *)
Definition getAttestMessagePrefix : prog string :=
  cached <- call GetCachedAttestMessagePrefix ;;
  (if is_falsy cached then
     contract <- await GetCachedDSMContract ;;
     messagePrefix <- await (ATTEST_MESSAGE_PREFIX contract) ;;
     call (SetCachedAttestMessagePrefix messagePrefix)
   else ret tt) ;;
  cached <- call GetCachedAttestMessagePrefix ;;
  ret (narrowed cached).

(** Returns a prefix from the contract with which the pause message
    should be signed. *)
Definition getPauseMessagePrefix : prog string :=
  cached <- call GetCachedPauseMessagePrefix ;;
  (if is_falsy cached then
     contract <- await GetCachedDSMContract ;;
     messagePrefix <- await (PAUSE_MESSAGE_PREFIX contract) ;;
     call (SetCachedPauseMessagePrefix messagePrefix)
   else ret tt) ;;
  cached <- call GetCachedPauseMessagePrefix ;;
  ret (narrowed cached).

(** Returns the maximum number of deposits per transaction from the
    contract. *)
Definition getMaxDeposits (blockTag : option BlockTag) : prog Z :=
  contract <- await GetCachedDSMContract ;;
  maxDeposits <- await (ContractGetMaxDeposits contract blockTag) ;;
  BigNumber_toNumber maxDeposits.

(** Returns the guardian list from the contract. *)
Definition getGuardians (blockTag : option BlockTag) : prog (list string) :=
  contract <- await GetCachedDSMContract ;;
  guardians <- await (ContractGetGuardians contract blockTag) ;;
  ret guardians.

(** Returns the guardian index in the list. *)
Definition getGuardianIndex (blockTag : option BlockTag) : prog Z :=
  guardians <- getGuardians blockTag ;;
  let address := address walletService in
  ret (indexOf guardians address).

(** Returns guardian address. *)
Definition getGuardianAddress : string := address walletService.

Definition initialize (blockTag : BlockTag) : prog unit :=
  guardianIndex <- getGuardianIndex (Some blockTag) ;;
  let address := address walletService in
  if guardianIndex =? -1 then
    call (LoggerWarn "Your address is not in the Guardian List"
            [("address", address)])
  else
    call (LoggerLog "Your address is in the Guardian List"
            [("address", address)]).

(** Signs a message to deposit buffered ethers with the prefix from the
    contract. *)
Definition signDepositData (depositRoot : string) (keysOpIndex blockNumber : Z)
  (blockHash : string) (stakingModuleId : Z) : prog Signature :=
  prefix <- getAttestMessagePrefix ;;
  await (WalletSignDepositData
           {| sd_prefix := prefix;
              sd_depositRoot := depositRoot;
              sd_keysOpIndex := keysOpIndex;
              sd_blockNumber := blockNumber;
              sd_blockHash := blockHash;
              sd_stakingModuleId := stakingModuleId |}).

(** Signs a message to pause deposits with the prefix from the contract. *)
Definition signPauseData (blockNumber stakingModuleId : Z) : prog Signature :=
  prefix <- getPauseMessagePrefix ;;
  await (WalletSignPauseData
           {| sp_prefix := prefix;
              sp_blockNumber := blockNumber;
              sp_stakingModuleId := stakingModuleId |}).

(** Returns the current state of deposits. *)
Definition isDepositsPaused (stakingModuleId : Z) (blockTag : option BlockTag)
  : prog bool :=
  stakingRouterContract <- await GetCachedStakingRouterContract ;;
  isActive <- await (GetStakingModuleIsActive stakingRouterContract
                       stakingModuleId blockTag) ;;
  ret (negb isActive).

(** Sends a transaction to pause deposits.  This is the method as written
    under the [OneAtTime] decorator; [tx.wait()] is called without an
    argument. *)
Definition pauseDeposits (blockNumber stakingModuleId : Z)
  (signature : Signature) : prog unit :=
  call (LoggerWarn "Try to pause deposits" []) ;;
  call PauseAttemptsInc ;;
  contract <- getContractWithSigner ;;
  let r := r signature in
  let vs := _vs signature in
  tx <- await (ContractPauseDeposits contract blockNumber stakingModuleId r vs) ;;
  call (LoggerWarn "Pause transaction sent" [("txHash", hash tx)]) ;;
  call (LoggerWarn "Waiting for block confirmation" []) ;;
  _ <- await (TxWait tx None) ;;
  call (LoggerWarn "Block confirmation received" []).

End SecurityService.

(** ** ProviderHealthIndicator *)

(** [block.timestamp]: reading a property of [null] or [undefined] throws a
    [TypeError]. *)
Definition Block_timestamp (block : option Block) : prog Z :=
  match block with
  | Some b => ret (timestamp b)
  | None => raise (TypeError "Cannot read properties of undefined")
  end.

(** [HealthIndicator.getStatus(key, isHealthy, data)]. *)
Definition getStatus (key : string) (isHealthy : bool)
  (blockTimestamp nowTimestamp : Z) : HealthIndicatorResult :=
  {| hi_key := key;
     hi_status := if isHealthy then up else down;
     hi_blockTimestamp := blockTimestamp;
     hi_nowTimestamp := nowTimestamp |}.

Section ProviderHealthIndicator.

(** The constant of [health.constants]. *)
Variable MAX_BLOCK_DELAY_SECONDS : Z.

Definition getBlockTimestamp : prog Z :=
  catch
    (block <- await ProviderGetBlock ;;
     Block_timestamp block)
    (fun error => ret (-1)).

(** [Math.floor(Date.now() / 1000)]; [Date.now()] is an integer number of
    milliseconds, so the floor of the quotient is [Z.div]. *)
Definition getNowTimestamp : prog Z :=
  now <- call DateNow ;;
  ret (now / 1000).

Definition isHealthy (key : string) : prog HealthIndicatorResult :=
  blockTimestamp <- getBlockTimestamp ;;
  nowTimestamp <- getNowTimestamp ;;
  let deltaTimestamp := Z.abs (nowTimestamp - blockTimestamp) in
  let isHealthy := deltaTimestamp <? MAX_BLOCK_DELAY_SECONDS in
  let result := getStatus key isHealthy blockTimestamp nowTimestamp in
  if isHealthy then ret result
  else raise (HealthCheckError "Provider check failed" result).

End ProviderHealthIndicator.

(** ** Configuration *)

Inductive ConfigType : Type :=
| ty_string
| ty_number
| ty_boolean
| ty_PubsubService
| ty_SASLMechanism.

(** The members of [interface Configuration], in declaration order. *)
Definition Configuration : list (string * ConfigType) :=
  [ ("NODE_ENV", ty_string);
    ("PORT", ty_number);
    ("LOG_LEVEL", ty_string);
    ("LOG_FORMAT", ty_string);
    ("RPC_URL", ty_string);
    ("WALLET_PRIVATE_KEY", ty_string);
    ("PUBSUB_SERVICE", ty_PubsubService);
    ("KAFKA_CLIENT_ID", ty_string);
    ("BROKER_TOPIC", ty_string);
    ("KAFKA_BROKER_ADDRESS_1", ty_string);
    ("KAFKA_BROKER_ADDRESS_2", ty_string);
    ("KAFKA_SSL", ty_boolean);
    ("KAFKA_SASL_MECHANISM", ty_SASLMechanism);
    ("KAFKA_USERNAME", ty_string);
    ("KAFKA_PASSWORD", ty_string);
    ("RABBITMQ_URL", ty_string);
    ("RABBITMQ_LOGIN", ty_string);
    ("RABBITMQ_PASSCODE", ty_string);
    ("REGISTRY_KEYS_QUERY_BATCH_SIZE", ty_number);
    ("REGISTRY_KEYS_QUERY_CONCURRENCY", ty_number);
    ("KEYS_API_PORT", ty_number);
    ("KEYS_API_HOST", ty_string) ].

(** The type of a member, [None] for a name the interface does not
    declare. *)
Fixpoint member_type (members : list (string * ConfigType)) (name : string)
  : option ConfigType :=
  match members with
  | [] => None
  | (key, ty) :: rest =>
      if String.eqb key name then Some ty else member_type rest name
  end.

Definition recognized (name : string) : bool :=
  match member_type Configuration name with
  | Some _ => true
  | None => false
  end.

(** The [environment] entries of the services of the compose file, as
    [NAME=value] pairs. *)
Definition keys_api_service_db_environment : list (string * string) :=
  [ ("POSTGRES_DB", "${KEYS_API_DB_NAME}");
    ("POSTGRES_USER", "${KEYS_API_DB_USER}");
    ("POSTGRES_PASSWORD", "${KEYS_API_DB_PASSWORD}") ].

Definition keys_api_service_api_environment : list (string * string) :=
  [ ("PORT", "3001");
    ("LOG_LEVEL", "${LOG_LEVEL}");
    ("LOG_FORMAT", "${LOG_FORMAT}");
    ("CHAIN_ID", "${CHAIN_ID}");
    ("PROVIDERS_URLS", "${RPC_URL}");
    ("VALIDATOR_REGISTRY_ENABLE", "false");
    ("DB_NAME", "${KEYS_API_DB_NAME}");
    ("DB_PORT", "5432");
    ("DB_HOST", "keys_api_service_db");
    ("DB_USER", "${KEYS_API_DB_USER}");
    ("DB_PASSWORD", "${KEYS_API_DB_PASSWORD}") ].

Definition council_daemon_environment : list (string * string) :=
  [ ("PORT", "3000");
    ("LOG_LEVEL", "${LOG_LEVEL}");
    ("LOG_FORMAT", "${LOG_FORMAT}");
    ("RPC_URL", "${RPC_URL}");
    ("WALLET_PRIVATE_KEY", "${WALLET_PRIVATE_KEY}");
    ("KEYS_API_HOST", "http://keys_api_service_api");
    ("KEYS_API_PORT", "3001");
    ("PUBSUB_SERVICE", "rabbitmq");
    ("RABBITMQ_URL", "${RABBITMQ_URL}");
    ("RABBITMQ_LOGIN", "${RABBITMQ_LOGIN}");
    ("RABBITMQ_PASSCODE", "${RABBITMQ_PASSCODE}") ].

Definition passes (environment : list (string * string)) (name : string) : bool :=
  existsb (fun entry => String.eqb (fst entry) name) environment.

(** ** Observations on the awaited calls *)

Definition is_attest_prefix_read (e : Event) : bool :=
  match e with
  | Ev promise _ =>
      match promise with
      | ATTEST_MESSAGE_PREFIX _ => true
      | _ => false
      end
  end.

Definition is_pause_prefix_read (e : Event) : bool :=
  match e with
  | Ev promise _ =>
      match promise with
      | PAUSE_MESSAGE_PREFIX _ => true
      | _ => false
      end
  end.

(** A read of [ATTEST_MESSAGE_PREFIX] (resp. [PAUSE_MESSAGE_PREFIX]) that
    was answered with a non-empty string. *)
Definition is_attest_prefix_value (e : Event) : bool :=
  match e with
  | Ev promise settled =>
      match promise in Async T return result T -> bool with
      | ATTEST_MESSAGE_PREFIX _ =>
          fun settled =>
            match settled with
            | Ok text => negb (String.eqb text "")
            | Err _ => false
            end
      | _ => fun _ => false
      end settled
  end.

Definition is_pause_prefix_value (e : Event) : bool :=
  match e with
  | Ev promise settled =>
      match promise in Async T return result T -> bool with
      | PAUSE_MESSAGE_PREFIX _ =>
          fun settled =>
            match settled with
            | Ok text => negb (String.eqb text "")
            | Err _ => false
            end
      | _ => fun _ => false
      end settled
  end.

Definition is_submission (e : Event) : bool :=
  match e with
  | Ev promise _ =>
      match promise with
      | ContractPauseDeposits _ _ _ _ _ => true
      | _ => false
      end
  end.

Definition count (f : Event -> bool) (history : list Event) : nat :=
  length (filter f history).

(** [tx.wait(confirms?)] of ethers waits for [confirms] confirmations, one
    when the argument is left out. *)
Definition confirmations_waited (confirms : option Z) : Z :=
  match confirms with
  | Some n => n
  | None => 1
  end.

(** The error of a rejected promise. *)
Definition rejection (e : Event) : option JsError :=
  match e with
  | Ev _ (Err error) => Some error
  | Ev _ (Ok _) => None
  end.

(** The error of the promise awaited last, when it was rejected. *)
Definition last_rejection (history : list Event) : option JsError :=
  match rev history with
  | e :: _ => rejection e
  | [] => None
  end.


(** ** Sequences of calls *)

(** A call of a public method of [SecurityService] with its arguments. *)
Inductive Invocation : Type :=
| call_initialize (blockTag : BlockTag)
| call_getContractWithSigner
| call_getAttestMessagePrefix
| call_getPauseMessagePrefix
| call_getMaxDeposits (blockTag : option BlockTag)
| call_getGuardians (blockTag : option BlockTag)
| call_getGuardianIndex (blockTag : option BlockTag)
| call_signDepositData (depositRoot : string) (keysOpIndex blockNumber : Z)
    (blockHash : string) (stakingModuleId : Z)
| call_signPauseData (blockNumber stakingModuleId : Z)
| call_isDepositsPaused (stakingModuleId : Z) (blockTag : option BlockTag)
| call_pauseDeposits (blockNumber stakingModuleId : Z) (signature : Signature).

Definition discard {R : Type} (p : prog R) : prog unit := _ <- p ;; ret tt.

Definition invoke (ws : WalletService) (ps : ProviderService) (i : Invocation)
  : prog unit :=
  match i with
  | call_initialize blockTag => initialize ws blockTag
  | call_getContractWithSigner => discard (getContractWithSigner ws ps)
  | call_getAttestMessagePrefix => discard getAttestMessagePrefix
  | call_getPauseMessagePrefix => discard getPauseMessagePrefix
  | call_getMaxDeposits blockTag => discard (getMaxDeposits blockTag)
  | call_getGuardians blockTag => discard (getGuardians blockTag)
  | call_getGuardianIndex blockTag => discard (getGuardianIndex ws blockTag)
  | call_signDepositData depositRoot keysOpIndex blockNumber blockHash
      stakingModuleId =>
      discard (signDepositData depositRoot keysOpIndex blockNumber blockHash
                 stakingModuleId)
  | call_signPauseData blockNumber stakingModuleId =>
      discard (signPauseData blockNumber stakingModuleId)
  | call_isDepositsPaused stakingModuleId blockTag =>
      discard (isDepositsPaused stakingModuleId blockTag)
  | call_pauseDeposits blockNumber stakingModuleId signature =>
      pauseDeposits ws ps blockNumber stakingModuleId signature
  end.

(** The calls of a sequence run one after the other, each to completion;
    a call that throws does not stop the following ones. *)
Fixpoint run_all (ws : WalletService) (ps : ProviderService) (env : Env)
  (calls : list Invocation) (w : World) : World :=
  match calls with
  | [] => w
  | i :: rest => run_all ws ps env rest (fst (run env (invoke ws ps i) w))
  end.

(** The same program called [n] times in a row, with the result of each
    call. *)
Fixpoint repeat_call {R : Type} (env : Env) (p : prog R) (n : nat) (w : World)
  : World * list (result R) :=
  match n with
  | O => (w, [])
  | S n' =>
      let (w1, first) := run env p w in
      let (w2, others) := repeat_call env p n' w1 in
      (w2, first :: others)
  end.

(** ** Suspended calls *)

(** Where a call stands after running as far as it can without a promise
    being settled. *)
Inductive Status (R : Type) : Type :=
| Finished (outcome : result R)
| Blocked {T : Type} (promise : Async T) (k : result T -> prog R).

Arguments Finished {R} outcome.
Arguments Blocked {R T} promise k.

(** Execution up to the next [await]. *)
Fixpoint advance {R : Type} (p : prog R) (w : World) : World * Status R :=
  match p with
  | Ret value => (w, Finished (Ok value))
  | Throw e => (w, Finished (Err e))
  | Do op k => let (w', t) := perform op w in advance (k t) w'
  | Await promise k => (w, Blocked promise k)
  end.

(** A call of [pauseDeposits] suspended at an [await]. *)
Inductive Suspension : Type :=
| Waiting {T : Type} (promise : Async T) (k : result T -> prog unit).

Arguments Waiting {T} promise k.

Record Runtime : Type := {
  world : World;
  isExecuting : bool;
  suspended : list Suspension
}.

Definition boot (w : World) : Runtime :=
  {| world := w; isExecuting := false; suspended := [] |}.

Fixpoint remove_nth {A : Type} (n : nat) (l : list A) : list A :=
  match l, n with
  | [], _ => []
  | _ :: rest, O => rest
  | x :: rest, S n' => x :: remove_nth n' rest
  end.

Fixpoint replace_nth {A : Type} (n : nat) (y : A) (l : list A) : list A :=
  match l, n with
  | [], _ => []
  | _ :: rest, O => y :: rest
  | x :: rest, S n' => x :: replace_nth n' y rest
  end.

(** Modelled from the spec: the [OneAtTime] decorator (common/decorators)
    is not in the source.  The specification describes it as the serial
    mutex that guards the pause submission process-wide: at most one
    submission in flight, and while one is pending further pause attempts
    are skipped until it completes.  The mutex is the flag [isExecuting]: a
    call that finds it set returns at once without running the method; a
    call that finds it clear sets it, runs the method, and clears it when
    the method has returned or thrown. *)
Definition OneAtTime (method : prog unit) (rt : Runtime) : Runtime :=
  if isExecuting rt then rt
  else
    let (w', status) := advance method (world rt) in
    match status with
    | Finished _ =>
        {| world := w'; isExecuting := false; suspended := suspended rt |}
    | Blocked promise k =>
        {| world := w'; isExecuting := true;
           suspended := suspended rt ++ [Waiting promise k] |}
    end.

(** Modelled from the spec: the release of the mutex of [OneAtTime], which
    is not in the source.  The promise that the [n]-th suspended call waits
    for settles, and the call runs on to its next [await] or to its end;
    when the method has returned or thrown the submission is complete and
    the mutex is released. *)
Definition resume (env : Env) (n : nat) (rt : Runtime) : Runtime :=
  match nth_error (suspended rt) n with
  | None => rt
  | Some (Waiting promise k) =>
      let (w1, settled) := settle env promise (world rt) in
      let (w2, status) := advance (k settled) w1 in
      match status with
      | Finished _ =>
          {| world := w2; isExecuting := false;
             suspended := remove_nth n (suspended rt) |}
      | Blocked promise' k' =>
          {| world := w2; isExecuting := isExecuting rt;
             suspended := replace_nth n (Waiting promise' k') (suspended rt) |}
      end
  end.

(** What can happen next in the process: some caller invokes
    [securityService.pauseDeposits], or a pending promise settles. *)
Inductive Action : Type :=
| Invoke (blockNumber stakingModuleId : Z) (signature : Signature)
| Settle (n : nat).

Definition step (ws : WalletService) (ps : ProviderService) (env : Env)
  (a : Action) (rt : Runtime) : Runtime :=
  match a with
  | Invoke blockNumber stakingModuleId signature =>
      OneAtTime (pauseDeposits ws ps blockNumber stakingModuleId signature) rt
  | Settle n => resume env n rt
  end.

Definition execute (ws : WalletService) (ps : ProviderService) (env : Env)
  (actions : list Action) (rt : Runtime) : Runtime :=
  fold_left (fun rt a => step ws ps env a rt) actions rt.

(** The suspended calls that have sent a pause transaction or are sending
    one. *)
Definition is_submitting (s : Suspension) : bool :=
  match s with
  | Waiting promise _ =>
      match promise with
      | ContractPauseDeposits _ _ _ _ _ => true
      | TxWait _ _ => true
      | _ => false
      end
  end.

Definition in_flight (rt : Runtime) : nat :=
  length (filter is_submitting (suspended rt)).

(** The runtime in which one call holds the mutex and has run up to
    [status]. *)
Definition entered (w : World) (status : Status unit) : Runtime :=
  match status with
  | Finished _ => {| world := w; isExecuting := false; suspended := [] |}
  | Blocked promise k =>
      {| world := w; isExecuting := true; suspended := [Waiting promise k] |}
  end.

(** The mutex is held exactly while one call is suspended. *)
Definition mutex_invariant (rt : Runtime) : Prop :=
  (isExecuting rt = false /\ suspended rt = []) \/
  (isExecuting rt = true /\ exists call, suspended rt = [call]).

(** ** The block loop *)

(** Modelled from the spec: the context that the orchestrator assembles for
    one staking module at a block; the orchestrator, the registry-keys
    fetcher and the conflict detector are not in the source.  It holds the
    outcome of the preconditions of section 4.1 (RPC error, stale key
    snapshot, guardian not in set, module already paused), whether the
    conflict set is non-empty, and the signature of the pause message
    signed for this block. *)
Record PipelineBlock : Type := {
  at_block : Z;
  module_id : Z;
  rpc_ok : bool;
  snapshot_fresh : bool;
  guardian_index : Z;
  is_active : bool;
  conflict_detected : bool;
  pause_signature : Signature
}.

(** Modelled from the spec: the decision of a block for a module,
    [Attest], [Pause] or [Skip(reason)]; the orchestrator is not in the
    source. *)
Inductive Decision : Type :=
| Attest
| Pause
| Skip (reason : string).

(** Modelled from the spec: the states of the pause submitter of a module
    that last from one event to the next, [Idle], [OnChainPending] and
    [Failed]; the submitter is not in the source.  [Signing] and
    [Broadcasting] are passed through within a block. *)
Inductive Submitter : Type :=
| Idle
| OnChainPending
| Failed (e : JsError).

Definition retry_pending (submitter : Submitter) : bool :=
  match submitter with
  | Failed _ => true
  | _ => false
  end.

(** Modelled from the spec: the preconditions of a block, which are not in
    the source.  [Skip] is emitted when one fails: RPC error, stale key
    snapshot, guardian not in set ([guardian_index = -1]: no signing and no
    submission), module already paused. *)
Definition precondition_failure (b : PipelineBlock) : option string :=
  if negb (rpc_ok b) then Some "rpc_error"
  else if negb (snapshot_fresh b) then Some "stale_snapshot"
  else if guardian_index b <? 0 then Some "not_guardian"
  else if negb (is_active b) then Some "already_paused"
  else None.

(** The process as the block loop sees it: the runtime with the mutex of
    [pauseDeposits], the state of the submitter, and the number of
    submissions that have completed. *)
Record Loop : Type := {
  runtime : Runtime;
  submitter : Submitter;
  succeeded : nat
}.

Definition loop_start (w : World) : Loop :=
  {| runtime := boot w; submitter := Idle; succeeded := 0 |}.

(** Modelled from the spec: the terminal of the submitter, [Idle] or
    [Failed], which is not in the source: the outcome with which a call ends
    is the terminal, and a call that is suspended leaves the module in
    [OnChainPending]. *)
Definition terminal (status : Status unit) : Submitter :=
  match status with
  | Finished (Ok _) => Idle
  | Finished (Err e) => Failed e
  | Blocked _ _ => OnChainPending
  end.

Definition completed (status : Status unit) : nat :=
  match status with
  | Finished (Ok _) => 1
  | _ => 0
  end.

(** Modelled from the spec: the pipeline of one block for one module; the
    orchestrator is not in the source.  A failed precondition skips the
    block.  Otherwise, when the conflict set is non-empty, or when the last
    submission ended in [Failed] (a [Failed] terminal is retried on the next
    block's pipeline invocation), the on-chain pause is enqueued: the
    decorated [pauseDeposits] of the source is called through the mutex and
    not awaited; a module in [OnChainPending] skips the attempt.  The
    submitter follows the call: [OnChainPending] while it is suspended, and
    the terminal of its outcome when it has ended.  With no conflict and
    nothing to retry the block attests.  A block at which the module is
    already paused is skipped like any other whose preconditions fail, so a
    retry waits for a block whose preconditions hold. *)
Definition on_block (ws : WalletService) (ps : ProviderService)
  (b : PipelineBlock) (l : Loop) : Loop * Decision :=
  match precondition_failure b with
  | Some reason => (l, Skip reason)
  | None =>
      if conflict_detected b || retry_pending (submitter l) then
        match submitter l with
        | OnChainPending => (l, Skip "pause_pending")
        | _ =>
            if isExecuting (runtime l) then (l, Skip "pause_pending")
            else
              let method := pauseDeposits ws ps (at_block b) (module_id b)
                              (pause_signature b) in
              let status := snd (advance method (world (runtime l))) in
              ({| runtime := OneAtTime method (runtime l);
                  submitter := terminal status;
                  succeeded := succeeded l + completed status |},
               Pause)
        end
      else (l, Attest)
  end.

(** The status in which the pending call is left when its promise
    settles. *)
Definition settled_status (env : Env) (rt : Runtime) : option (Status unit) :=
  match nth_error (suspended rt) 0 with
  | None => None
  | Some (Waiting promise k) =>
      let (w1, settled) := settle env promise (world rt) in
      Some (snd (advance (k settled) w1))
  end.

(** Modelled from the spec: the completion of a pending submission, which
    is not in the source.  The promise that the pending call waits for
    settles; when the call ends the mutex is released and the submitter
    takes the terminal of the outcome. *)
Definition on_settlement (env : Env) (l : Loop) : Loop :=
  match settled_status env (runtime l) with
  | None => l
  | Some status =>
      {| runtime := resume env 0 (runtime l);
         submitter := terminal status;
         succeeded := succeeded l + completed status |}
  end.

(** What happens next: a new block arrives with its context, or the pending
    promise settles. *)
Inductive LoopEvent : Type :=
| NewBlock (b : PipelineBlock)
| Settlement.

Definition loop_step (ws : WalletService) (ps : ProviderService) (env : Env)
  (l : Loop) (event : LoopEvent) : Loop :=
  match event with
  | NewBlock b => fst (on_block ws ps b l)
  | Settlement => on_settlement env l
  end.

Definition loop_run (ws : WalletService) (ps : ProviderService) (env : Env)
  (events : list LoopEvent) (l : Loop) : Loop :=
  fold_left (loop_step ws ps env) events l.




(** ** Fixtures *)

Definition guardian_wallet : WalletService :=
  {| wallet := {| wallet_address := "0xGuardian2"; wallet_provider := None |};
     address := "0xGuardian2" |}.

Definition rpc : ProviderService :=
  {| provider := {| provider_url := "http://localhost:8545" |} |}.

Definition dsm : Contract :=
  {| contract_address := "0xDSM"; contract_signer := None |}.

Definition stakingRouter : Contract :=
  {| contract_address := "0xStakingRouter"; contract_signer := None |}.

Definition a_signature : Signature :=
  {| r := "0x11"; s := "0x22"; _vs := "0x33"; recoveryParam := 0; v := 27 |}.

Definition a_block : Block :=
  {| block_number := 17000000; block_hash := "0xb10c"; timestamp := 1700000000 |}.

Definition fresh_world : World :=
  {| logged := [];
     pauseAttempts := 0;
     cachedAttestMessagePrefix := None;
     cachedPauseMessagePrefix := None;
     now_ms := 1700000012345;
     awaited := [] |}.

(** Every collaborator answers. *)
Definition env_healthy : Env :=
  fun history T promise =>
    match promise in Async T return result T with
    | GetCachedDSMContract => Ok dsm
    | GetCachedStakingRouterContract => Ok stakingRouter
    | ATTEST_MESSAGE_PREFIX _ => Ok "0xa77e57"
    | PAUSE_MESSAGE_PREFIX _ => Ok "0x9a05e"
    | ContractGetMaxDeposits _ _ => Ok 150
    | ContractGetGuardians _ _ => Ok ["0xGuardian1"; "0xGuardian2"; "0xGuardian3"]
    | GetStakingModuleIsActive _ _ _ => Ok true
    | ContractPauseDeposits _ _ _ _ _ => Ok {| hash := "0x7a" |}
    | TxWait tx _ => Ok {| transactionHash := hash tx; confirmations := 1 |}
    | WalletSignDepositData _ => Ok a_signature
    | WalletSignPauseData _ => Ok a_signature
    | ProviderGetBlock => Ok (Some a_block)
    end.


(** The first read of a message prefix times out, later ones answer. *)
Definition env_first_read_fails : Env :=
  fun history T promise =>
    match promise in Async T return result T with
    | ATTEST_MESSAGE_PREFIX _ =>
        if existsb is_attest_prefix_read history then Ok "0xa77e57"
        else Err (Error "timeout")
    | PAUSE_MESSAGE_PREFIX _ =>
        if existsb is_pause_prefix_read history then Ok "0x9a05e"
        else Err (Error "timeout")
    | other => env_healthy history _ other
    end.

(** The provider is unreachable. *)
Definition env_no_provider : Env :=
  fun history T promise =>
    match promise in Async T return result T with
    | ProviderGetBlock => Err (Error "could not detect network")
    | other => env_healthy history _ other
    end.

(** The node rejects the first [n] pause transactions and accepts the
    following ones. *)
Definition env_rejecting_first (n : nat) : Env :=
  fun history T promise =>
    match promise in Async T return result T with
    | ContractPauseDeposits _ _ _ _ _ =>
        if (count is_submission history <? n)%nat
        then Err (Error "nonce too low")
        else Ok {| hash := "0x7a" |}
    | other => env_healthy history _ other
    end.

(** A block whose preconditions hold and at which a conflict is detected;
    the same block with a stale key snapshot. *)
Definition conflict_at (blockNumber : Z) : PipelineBlock :=
  {| at_block := blockNumber;
     module_id := 1;
     rpc_ok := true;
     snapshot_fresh := true;
     guardian_index := 1;
     is_active := true;
     conflict_detected := true;
     pause_signature := a_signature |}.

Definition stale_at (blockNumber : Z) : PipelineBlock :=
  {| at_block := blockNumber;
     module_id := 1;
     rpc_ok := true;
     snapshot_fresh := false;
     guardian_index := 1;
     is_active := true;
     conflict_detected := true;
     pause_signature := a_signature |}.

(** ** Footprints of the methods *)

Definition is_pauseDeposits_call (i : Invocation) : bool :=
  match i with
  | call_pauseDeposits _ _ _ => true
  | _ => false
  end.

(** The methods that call the logger. *)
Definition logs (i : Invocation) : bool :=
  match i with
  | call_initialize _ => true
  | call_pauseDeposits _ _ _ => true
  | _ => false
  end.

(** The methods that go through [getAttestMessagePrefix] (resp.
    [getPauseMessagePrefix]). *)
Definition uses_attest_prefix (i : Invocation) : bool :=
  match i with
  | call_getAttestMessagePrefix => true
  | call_signDepositData _ _ _ _ _ => true
  | _ => false
  end.

Definition uses_pause_prefix (i : Invocation) : bool :=
  match i with
  | call_getPauseMessagePrefix => true
  | call_signPauseData _ _ => true
  | _ => false
  end.

(** The calls awaited between two states of the process. *)
Definition awaited_since (before after : World) : list Event :=
  skipn (length (awaited before)) (awaited after).

Definition is_fulfilled (e : Event) : bool :=
  match rejection e with
  | None => true
  | Some _ => false
  end.

(** What [logger.warn(message, meta)] and [logger.log(message, meta)]
    leave in the log. *)
Definition warning (message : string) (meta : list (string * string)) : LogEntry :=
  {| log_level := level_warn; log_message := message; log_meta := meta |}.

Definition notice (message : string) (meta : list (string * string)) : LogEntry :=
  {| log_level := level_log; log_message := message; log_meta := meta |}.

(** The guardian list cannot be read; everything else answers. *)
Definition env_guardians_unreadable : Env :=
  fun history T promise =>
    match promise in Async T return result T with
    | ContractGetGuardians _ _ => Err (Error "timeout")
    | other => env_healthy history _ other
    end.

Definition is_wait (e : Event) : bool :=
  match e with
  | Ev promise _ =>
      match promise with
      | TxWait _ _ => true
      | _ => false
      end
  end.

(** ** Overlapping calls *)

(** The promise that a suspended call waits for settles and the call runs
    on to its next [await]; a call that has ended stays as it is. *)
Definition deliver {R : Type} (env : Env) (s : Status R) (w : World)
  : World * Status R :=
  match s with
  | Finished outcome => (w, Finished outcome)
  | Blocked promise k =>
      let (w1, settled) := settle env promise w in advance (k settled) w1
  end.

(** Two calls in flight.  The schedule tells, step by step, which of the two
    gets its pending promise settled next ([true]: the first). *)
Fixpoint overlap {A B : Type} (env : Env) (schedule : list bool)
  (a : Status A) (b : Status B) (w : World) : World * (Status A * Status B) :=
  match schedule with
  | [] => (w, (a, b))
  | true :: rest =>
      let (w', a') := deliver env a w in overlap env rest a' b w'
  | false :: rest =>
      let (w', b') := deliver env b w in overlap env rest a b' w'
  end.

(** Two calls made one right after the other, before any promise settles:
    each runs up to its first [await], then the promises settle in the order
    of the schedule. *)
Definition call_both {A B : Type} (env : Env) (schedule : list bool)
  (p : prog A) (q : prog B) (w : World) : World * (Status A * Status B) :=
  let (w1, a) := advance p w in
  let (w2, b) := advance q w1 in
  overlap env schedule a b w2.

(** The DSM contract is [contract]; everything else answers as in
    [env_healthy]. *)
Definition env_with_contract (contract : Contract) : Env :=
  fun history T promise =>
    match promise in Async T return result T with
    | GetCachedDSMContract => Ok contract
    | other => env_healthy history _ other
    end.

(** The places at which a call of [getAttestMessagePrefix] that found the
    cache empty can stand: waiting for the contract, waiting for the prefix
    read from [contract], ended before the read, ended after it. *)
Inductive AttestPhase : Type :=
| fetching_contract
| reading_prefix (contract : Contract)
| ended_unread (e : JsError)
| ended_read (outcome : result string).

Definition attest_fetching_contract : Status string :=
  snd (advance getAttestMessagePrefix fresh_world).

Definition attest_reading_prefix (contract : Contract) : Status string :=
  snd (deliver (env_with_contract contract) attest_fetching_contract fresh_world).

Definition status_of (phase : AttestPhase) : Status string :=
  match phase with
  | fetching_contract => attest_fetching_contract
  | reading_prefix contract => attest_reading_prefix contract
  | ended_unread e => Finished (Err e)
  | ended_read outcome => Finished outcome
  end.

Definition reads_of (phase : AttestPhase) : nat :=
  match phase with
  | ended_read _ => 1
  | _ => 0
  end.

(** ** The values of the configuration *)

(** [type PubsubService = 'rabbitmq' | 'kafka']. *)
Definition PubsubService : list string := ["rabbitmq"; "kafka"].

(** The value that an environment gives to a variable. *)
Fixpoint passed_value (environment : list (string * string)) (name : string)
  : option string :=
  match environment with
  | [] => None
  | (key, value) :: rest =>
      if String.eqb key name then Some value else passed_value rest name
  end.

(** The guardian list has grown by [added] at some block. *)
Definition env_with_guardians (guardians : list string) : Env :=
  fun history T promise =>
    match promise in Async T return result T with
    | ContractGetGuardians _ _ => Ok guardians
    | other => env_healthy history _ other
    end.

(** The provider answers without a block. *)
Definition env_no_block : Env :=
  fun history T promise =>
    match promise in Async T return result T with
    | ProviderGetBlock => Ok None
    | other => env_healthy history _ other
    end.

(** A pause transaction that the node accepted, and a confirmation that
    arrived. *)
Definition is_accepted_submission (e : Event) : bool :=
  match e with
  | Ev promise settled =>
      match promise, settled with
      | ContractPauseDeposits _ _ _ _ _, Ok _ => true
      | _, _ => false
      end
  end.

Definition is_confirmation (e : Event) : bool :=
  match e with
  | Ev promise settled =>
      match promise, settled with
      | TxWait _ _, Ok _ => true
      | _, _ => false
      end
  end.

(** * Properties *)

(** ** Running programs *)

Lemma run_bind {A B : Type} (env : Env) (p : prog A) (f : A -> prog B) (w : World) :
  run env (bind p f) w =
  match run env p w with
  | (w', Ok a) => run env (f a) w'
  | (w', Err e) => (w', Err e)
  end.
Proof.
  revert w. induction p as [a | e | T op k IH | T promise k IH]; intros w; cbn.
  - reflexivity.
  - reflexivity.
  - destruct (perform op w) as [w' t]. apply IH.
  - destruct (settle env promise w) as [w' settled]. apply IH.
Qed.

(** Stepping through a program: unfold the method, and split on how the
    environment settles each awaited promise. *)
Ltac settle_next :=
  match goal with
  | |- context [run ?env _ _] =>
      match goal with
      | |- context [env ?h ?T ?promise] =>
          let E := fresh "Settled" in
          destruct (env h T promise) eqn:E; cbn
      end
  end.

Ltac flatten_history := repeat rewrite <- app_assoc; cbn [app].

Lemma count_snoc (f : Event -> bool) (history : list Event) (e : Event) :
  count f (history ++ [e]) = (count f history + if f e then 1 else 0)%nat.
Proof.
  unfold count. rewrite filter_app, length_app. cbn.
  destruct (f e); reflexivity.
Qed.

Arguments count f history : simpl never.

(** The same for a whole method: split on every promise and every test on
    the way. *)
Ltac branch :=
  match goal with
  | |- context [match ?env ?h ?T ?promise with Ok _ => _ | Err _ => _ end] =>
      let E := fresh "Settled" in
      destruct (env h T promise) eqn:E; cbn
  | |- context [BigNumber_toNumber _] => unfold BigNumber_toNumber; cbn
  | |- context [String.eqb ?a ?b] =>
      let E := fresh "Test" in
      destruct (String.eqb a b) eqn:E; cbn
  | |- context [if ?c then _ else _] =>
      let E := fresh "Test" in
      destruct c eqn:E; cbn
  end.

Ltac same_reads := repeat rewrite count_snoc; cbn; lia.

Lemma not_empty_eqb (text : string) : text <> "" -> String.eqb text "" = false.
Proof.
  intros H. destruct (String.eqb_spec text ""); [contradiction | reflexivity].
Qed.

(** ** pauseDeposits *)

(** C1.  [pauseDeposits] fetches the DSM contract, connects it to the wallet
    connected to the provider, and awaits
    [pauseDeposits(blockNumber, stakingModuleId, {r, vs})] on it, with [r]
    and [vs] the [r] and [_vs] members of the signature; it then awaits
    [tx.wait()] exactly once, without an argument (one confirmation), and
    only then returns.  Every run awaits a prefix of these three calls, cut
    at the first rejected promise, and the run returns as soon as the three
    promises are fulfilled. *)
Theorem pauseDeposits_submits_and_waits :
  forall (ws : WalletService) (ps : ProviderService) (env : Env) (w : World)
         (blockNumber stakingModuleId : Z) (signature : Signature),
    let out := run env (pauseDeposits ws ps blockNumber stakingModuleId signature) w in
    let signer := Wallet_connect (wallet ws) (provider ps) in
    let submission := fun contract =>
      ContractPauseDeposits (Contract_connect contract signer)
        blockNumber stakingModuleId (r signature) (_vs signature) in
    ((exists contract tx receipt,
         snd out = Ok tt /\
         awaited (fst out) = awaited w ++
           [Ev GetCachedDSMContract (Ok contract);
            Ev (submission contract) (Ok tx);
            Ev (TxWait tx None) (Ok receipt)])
     \/ (exists e,
           snd out = Err e /\
           awaited (fst out) = awaited w ++ [Ev GetCachedDSMContract (Err e)])
     \/ (exists e contract,
           snd out = Err e /\
           awaited (fst out) = awaited w ++
             [Ev GetCachedDSMContract (Ok contract);
              Ev (submission contract) (Err e)])
     \/ (exists e contract tx,
           snd out = Err e /\
           awaited (fst out) = awaited w ++
             [Ev GetCachedDSMContract (Ok contract);
              Ev (submission contract) (Ok tx);
              Ev (TxWait tx None) (Err e)]))
    /\ (forall contract tx receipt,
          env (awaited w) _ GetCachedDSMContract = Ok contract ->
          env (awaited w ++ [Ev GetCachedDSMContract (Ok contract)]) _
            (submission contract) = Ok tx ->
          env (awaited w ++ [Ev GetCachedDSMContract (Ok contract);
                             Ev (submission contract) (Ok tx)]) _
            (TxWait tx None) = Ok receipt ->
          snd out = Ok tt)
    /\ confirmations_waited None = 1.
Proof.
  intros ws ps env w blockNumber stakingModuleId signature out signer submission.
  subst out submission signer.
  unfold pauseDeposits, getContractWithSigner. cbn.
  split; [| split; [| reflexivity]].
  - settle_next.
    + settle_next.
      * settle_next.
        -- left. eexists _, _, _. split; [reflexivity |].
           flatten_history. reflexivity.
        -- right. right. right. eexists _, _, _. split; [reflexivity |].
           flatten_history. reflexivity.
      * right. right. left. eexists _, _. split; [reflexivity |].
        flatten_history. reflexivity.
    + right. left. eexists. split; reflexivity.
  - intros contract tx receipt H1 H2 H3.
    unfold settle. cbn. rewrite H1. cbn. rewrite H2. cbn.
    flatten_history. rewrite H3. reflexivity.
Qed.

(** The three promises are fulfilled by [env_healthy]: the call returns. *)
Lemma pauseDeposits_submits_and_waits_witness :
  snd (run env_healthy (pauseDeposits guardian_wallet rpc 17000000 1 a_signature)
         fresh_world) = Ok tt.
Proof.
  apply (proj1 (proj2 (pauseDeposits_submits_and_waits guardian_wallet rpc
                         env_healthy fresh_world 17000000 1 a_signature)))
    with (contract := dsm) (tx := {| hash := "0x7a" |})
         (receipt := {| transactionHash := "0x7a"; confirmations := 1 |});
    reflexivity.
Defined.





(** ** getGuardianIndex *)

Lemma indexOf_from_bounds (xs : list string) (x : string) (i : Z) :
  indexOf_from xs x i = -1 \/
  (i <= indexOf_from xs x i < i + Z.of_nat (length xs)).
Proof.
  revert i. induction xs as [| y ys IH]; intros i; cbn [indexOf_from length].
  - left. reflexivity.
  - destruct (String.eqb y x).
    + right. lia.
    + destruct (IH (i + 1)) as [H | H]; [left; exact H | right; lia].
Qed.

Lemma indexOf_from_absent (xs : list string) (x : string) (i : Z) :
  0 <= i -> (indexOf_from xs x i = -1 <-> ~ In x xs).
Proof.
  revert i. induction xs as [| y ys IH]; intros i Hi; cbn [indexOf_from In].
  - split; [intros _ [] | reflexivity].
  - destruct (String.eqb_spec y x) as [Heq | Hneq].
    + split; [lia | intros H; exfalso; apply H; left; exact Heq].
    + rewrite (IH (i + 1)) by lia. split.
      * intros H [H' | H']; [exact (Hneq H') | exact (H H')].
      * intros H H'. apply H. right. exact H'.
Qed.

Lemma indexOf_from_first (xs : list string) (x : string) (i : Z) :
  0 <= i ->
  indexOf_from xs x i <> -1 ->
  nth_error xs (Z.to_nat (indexOf_from xs x i - i)) = Some x /\
  forall j : nat,
    (j < Z.to_nat (indexOf_from xs x i - i))%nat -> nth_error xs j <> Some x.
Proof.
  revert i. induction xs as [| y ys IH]; intros i Hi; cbn [indexOf_from].
  - intros H. exfalso. apply H. reflexivity.
  - destruct (String.eqb_spec y x) as [Heq | Hneq]; intros Hfound.
    + replace (i - i) with 0 by lia. cbn. split.
      * rewrite Heq. reflexivity.
      * intros j Hj. lia.
    + destruct (IH (i + 1) ltac:(lia) Hfound) as [Hnth Hbefore].
      destruct (indexOf_from_bounds ys x (i + 1)) as [Habs | Hrange];
        [contradiction |].
      replace (Z.to_nat (indexOf_from ys x (i + 1) - i))
        with (S (Z.to_nat (indexOf_from ys x (i + 1) - (i + 1)))) by lia.
      split.
      * exact Hnth.
      * intros [| j] Hj; cbn.
        -- intros H. injection H as H. exact (Hneq H).
        -- apply Hbefore. lia.
Qed.

(** C4.  When the DSM contract is available and its guardian list at the
    block tag is read, [getGuardianIndex] returns a number [i] that is [-1]
    exactly when the wallet's address is not in the list and otherwise the
    zero-based position of the first element equal to that address. *)
Theorem getGuardianIndex_is_position :
  forall (ws : WalletService) (env : Env) (w : World)
         (blockTag : option BlockTag) (contract : Contract)
         (guardians : list string),
    env (awaited w) _ GetCachedDSMContract = Ok contract ->
    env (awaited w ++ [Ev GetCachedDSMContract (Ok contract)]) _
      (ContractGetGuardians contract blockTag) = Ok guardians ->
    exists i : Z,
      snd (run env (getGuardianIndex ws blockTag) w) = Ok i /\
      i = indexOf guardians (address ws) /\
      (i = -1 <-> ~ In (address ws) guardians) /\
      (i <> -1 ->
       0 <= i < Z.of_nat (length guardians) /\
       nth_error guardians (Z.to_nat i) = Some (address ws) /\
       forall j : nat,
         (j < Z.to_nat i)%nat -> nth_error guardians j <> Some (address ws)).
Proof.
  intros ws env w blockTag contract guardians Hcontract Hguardians.
  exists (indexOf guardians (address ws)).
  split; [| split; [reflexivity | split]].
  - unfold getGuardianIndex, getGuardians. cbn.
    rewrite Hcontract. cbn. rewrite Hguardians. reflexivity.
  - apply indexOf_from_absent. lia.
  - intros Hfound. unfold indexOf in *.
    destruct (indexOf_from_first guardians (address ws) 0 ltac:(lia) Hfound)
      as [Hnth Hbefore].
    rewrite Z.sub_0_r in Hnth, Hbefore.
    destruct (indexOf_from_bounds guardians (address ws) 0) as [Habs | Hrange];
      [contradiction |].
    repeat split; try lia; assumption.
Qed.

(** The wallet of the fixture is the second of three guardians. *)
Lemma getGuardianIndex_is_position_witness :
  exists i : Z,
    snd (run env_healthy (getGuardianIndex guardian_wallet (Some (TagNumber 17000000)))
           fresh_world) = Ok i /\
    i = 1 /\
    nth_error ["0xGuardian1"; "0xGuardian2"; "0xGuardian3"] (Z.to_nat i)
    = Some (address guardian_wallet).
Proof.
  destruct (getGuardianIndex_is_position guardian_wallet env_healthy fresh_world
              (Some (TagNumber 17000000)) dsm
              ["0xGuardian1"; "0xGuardian2"; "0xGuardian3"]
              eq_refl eq_refl) as [i [Hrun [Hi [_ Hfound]]]].
  exists i. split; [exact Hrun |]. split; [rewrite Hi; reflexivity |].
  apply Hfound. rewrite Hi. vm_compute. discriminate.
Defined.

(** ** isDepositsPaused *)

(** C9.  When the StakingRouter contract is available and answers
    [getStakingModuleIsActive(stakingModuleId, { blockTag })] with
    [isActive], [isDepositsPaused] awaits exactly these two calls and
    returns [!isActive]. *)
Theorem isDepositsPaused_negates_isActive :
  forall (env : Env) (w : World) (stakingModuleId : Z)
         (blockTag : option BlockTag) (stakingRouterContract : Contract)
         (isActive : bool),
    env (awaited w) _ GetCachedStakingRouterContract = Ok stakingRouterContract ->
    env (awaited w ++ [Ev GetCachedStakingRouterContract (Ok stakingRouterContract)]) _
      (GetStakingModuleIsActive stakingRouterContract stakingModuleId blockTag)
      = Ok isActive ->
    let out := run env (isDepositsPaused stakingModuleId blockTag) w in
    snd out = Ok (negb isActive) /\
    awaited (fst out) = awaited w ++
      [Ev GetCachedStakingRouterContract (Ok stakingRouterContract);
       Ev (GetStakingModuleIsActive stakingRouterContract stakingModuleId blockTag)
          (Ok isActive)].
Proof.
  intros env w stakingModuleId blockTag stakingRouterContract isActive
    Hcontract HisActive out.
  subst out. unfold isDepositsPaused. cbn.
  rewrite Hcontract. cbn. rewrite HisActive. cbn.
  flatten_history. split; reflexivity.
Qed.

(** The module of the fixture is active: deposits are not paused. *)
Lemma isDepositsPaused_negates_isActive_witness :
  snd (run env_healthy (isDepositsPaused 1 None) fresh_world) = Ok false.
Proof.
  exact (proj1 (isDepositsPaused_negates_isActive env_healthy fresh_world 1 None
                  stakingRouter true eq_refl eq_refl)).
Defined.

(** ** ProviderHealthIndicator *)

(** [getBlockTimestamp] always returns: the timestamp of the block when the
    provider answers with one, [-1] when [getBlock] is rejected or answers
    without a block. *)
Lemma getBlockTimestamp_returns (env : Env) (w : World) :
  run env getBlockTimestamp w =
  (record_event (Ev ProviderGetBlock (env (awaited w) _ ProviderGetBlock)) w,
   Ok match env (awaited w) _ ProviderGetBlock with
      | Ok (Some block) => timestamp block
      | Ok None => -1
      | Err _ => -1
      end).
Proof.
  unfold getBlockTimestamp. cbn.
  destruct (env (awaited w) (option Block) ProviderGetBlock) as [[block |] | e];
    reflexivity.
Qed.



(** ** Configuration *)

(** C8, as the code has it.  [RPC_URL] and [WALLET_PRIVATE_KEY] are members
    of [Configuration], both of type [string]; [CHAIN_ID] is not a member.
    In the compose file [CHAIN_ID] is passed to the keys-API container and
    not to the [council_daemon] container. *)
Theorem Configuration_has_no_CHAIN_ID :
  member_type Configuration "RPC_URL" = Some ty_string /\
  member_type Configuration "WALLET_PRIVATE_KEY" = Some ty_string /\
  member_type Configuration "CHAIN_ID" = None /\
  passes keys_api_service_api_environment "CHAIN_ID" = true /\
  passes council_daemon_environment "CHAIN_ID" = false.
Proof.
  repeat split.
Qed.

(** C8, counterexample.  [CHAIN_ID] is not among the options the
    configuration type recognizes. *)
Lemma CHAIN_ID_not_recognized :
  recognized "CHAIN_ID" = false /\
  recognized "RPC_URL" = true /\
  recognized "WALLET_PRIVATE_KEY" = true.
Proof.
  repeat split.
Qed.

(** ** The cached message prefixes *)

(** No method changes a non-empty cached attest prefix, and none reads
    [ATTEST_MESSAGE_PREFIX] while it is cached. *)
Lemma invoke_keeps_attest_prefix
  (ws : WalletService) (ps : ProviderService) (env : Env) (w : World)
  (prefix : string) (i : Invocation) :
  cachedAttestMessagePrefix w = Some prefix ->
  prefix <> "" ->
  let w' := fst (run env (invoke ws ps i) w) in
  cachedAttestMessagePrefix w' = Some prefix /\
  count is_attest_prefix_read (awaited w') =
  count is_attest_prefix_read (awaited w).
Proof.
  intros Hcached Hprefix. apply not_empty_eqb in Hprefix.
  destruct i; cbn; rewrite ?Hcached; cbn; rewrite ?Hprefix; cbn;
    repeat branch; (split; [assumption | same_reads]).
Qed.

Lemma invoke_keeps_pause_prefix
  (ws : WalletService) (ps : ProviderService) (env : Env) (w : World)
  (prefix : string) (i : Invocation) :
  cachedPauseMessagePrefix w = Some prefix ->
  prefix <> "" ->
  let w' := fst (run env (invoke ws ps i) w) in
  cachedPauseMessagePrefix w' = Some prefix /\
  count is_pause_prefix_read (awaited w') =
  count is_pause_prefix_read (awaited w).
Proof.
  intros Hcached Hprefix. apply not_empty_eqb in Hprefix.
  destruct i; cbn; rewrite ?Hcached; cbn; rewrite ?Hprefix; cbn;
    repeat branch; (split; [assumption | same_reads]).
Qed.

Lemma run_all_keeps_attest_prefix
  (ws : WalletService) (ps : ProviderService) (env : Env)
  (calls : list Invocation) (w : World) (prefix : string) :
  cachedAttestMessagePrefix w = Some prefix ->
  prefix <> "" ->
  cachedAttestMessagePrefix (run_all ws ps env calls w) = Some prefix /\
  count is_attest_prefix_read (awaited (run_all ws ps env calls w)) =
  count is_attest_prefix_read (awaited w).
Proof.
  revert w. induction calls as [| i rest IH]; intros w Hcached Hprefix.
  - split; [exact Hcached | reflexivity].
  - destruct (invoke_keeps_attest_prefix ws ps env w prefix i Hcached Hprefix)
      as [Hkept Hreads].
    destruct (IH _ Hkept Hprefix) as [Hkept' Hreads'].
    cbn [run_all]. split; [exact Hkept' | congruence].
Qed.

Lemma run_all_keeps_pause_prefix
  (ws : WalletService) (ps : ProviderService) (env : Env)
  (calls : list Invocation) (w : World) (prefix : string) :
  cachedPauseMessagePrefix w = Some prefix ->
  prefix <> "" ->
  cachedPauseMessagePrefix (run_all ws ps env calls w) = Some prefix /\
  count is_pause_prefix_read (awaited (run_all ws ps env calls w)) =
  count is_pause_prefix_read (awaited w).
Proof.
  revert w. induction calls as [| i rest IH]; intros w Hcached Hprefix.
  - split; [exact Hcached | reflexivity].
  - destruct (invoke_keeps_pause_prefix ws ps env w prefix i Hcached Hprefix)
      as [Hkept Hreads].
    destruct (IH _ Hkept Hprefix) as [Hkept' Hreads'].
    cbn [run_all]. split; [exact Hkept' | congruence].
Qed.

(** A call that finds a non-empty prefix cached returns it and leaves the
    process state as it is: nothing is awaited. *)
Lemma getAttestMessagePrefix_cached (env : Env) (w : World) (prefix : string) :
  cachedAttestMessagePrefix w = Some prefix ->
  prefix <> "" ->
  run env getAttestMessagePrefix w = (w, Ok prefix).
Proof.
  intros Hcached Hprefix. apply not_empty_eqb in Hprefix.
  unfold getAttestMessagePrefix. cbn. rewrite Hcached. cbn.
  rewrite Hprefix. cbn. rewrite Hcached. reflexivity.
Qed.

Lemma getPauseMessagePrefix_cached (env : Env) (w : World) (prefix : string) :
  cachedPauseMessagePrefix w = Some prefix ->
  prefix <> "" ->
  run env getPauseMessagePrefix w = (w, Ok prefix).
Proof.
  intros Hcached Hprefix. apply not_empty_eqb in Hprefix.
  unfold getPauseMessagePrefix. cbn. rewrite Hcached. cbn.
  rewrite Hprefix. cbn. rewrite Hcached. reflexivity.
Qed.

(** A call that returns a non-empty prefix leaves it in the cache. *)
Lemma getAttestMessagePrefix_caches (env : Env) (w : World) (prefix : string) :
  snd (run env getAttestMessagePrefix w) = Ok prefix ->
  prefix <> "" ->
  cachedAttestMessagePrefix (fst (run env getAttestMessagePrefix w)) = Some prefix.
Proof.
  unfold getAttestMessagePrefix. cbn.
  destruct (cachedAttestMessagePrefix w) as [cached |] eqn:Hcached; cbn.
  - destruct (String.eqb_spec cached ""); cbn.
    + repeat branch; cbn; intros H; try discriminate H.
      injection H as H. rewrite H. reflexivity.
    + rewrite Hcached. cbn. intros H. injection H as H. rewrite H. reflexivity.
  - repeat branch; cbn; intros H; try discriminate H.
    injection H as H. rewrite H. reflexivity.
Qed.

Lemma getPauseMessagePrefix_caches (env : Env) (w : World) (prefix : string) :
  snd (run env getPauseMessagePrefix w) = Ok prefix ->
  prefix <> "" ->
  cachedPauseMessagePrefix (fst (run env getPauseMessagePrefix w)) = Some prefix.
Proof.
  unfold getPauseMessagePrefix. cbn.
  destruct (cachedPauseMessagePrefix w) as [cached |] eqn:Hcached; cbn.
  - destruct (String.eqb_spec cached ""); cbn.
    + repeat branch; cbn; intros H; try discriminate H.
      injection H as H. rewrite H. reflexivity.
    + rewrite Hcached. cbn. intros H. injection H as H. rewrite H. reflexivity.
  - repeat branch; cbn; intros H; try discriminate H.
    injection H as H. rewrite H. reflexivity.
Qed.

(** The number of answered reads of the attest prefix is 0 while the cache
    is falsy and 1 once it holds a prefix. *)
Lemma invoke_reads_attest_prefix_once
  (ws : WalletService) (ps : ProviderService) (env : Env) (w : World)
  (i : Invocation) :
  count is_attest_prefix_value (awaited w) =
    (if is_falsy (cachedAttestMessagePrefix w) then 0 else 1)%nat ->
  let w' := fst (run env (invoke ws ps i) w) in
  count is_attest_prefix_value (awaited w') =
    (if is_falsy (cachedAttestMessagePrefix w') then 0 else 1)%nat.
Proof.
  intros Hinv.
  destruct (cachedAttestMessagePrefix w) as [cached |] eqn:Hcached;
    cbn in Hinv;
    [destruct (String.eqb cached "") eqn:Hempty |];
    destruct i; cbn;
    repeat progress (rewrite ?Hcached; cbn; rewrite ?Hempty; cbn);
    repeat (branch; repeat progress (rewrite ?Hcached; cbn; rewrite ?Hempty; cbn));
    repeat rewrite count_snoc; cbn; rewrite ?Hinv;
    repeat match goal with
           | H : String.eqb _ _ = _ |- _ => rewrite H
           end;
    reflexivity.
Qed.

(** The number of answered reads of the pause prefix is 0 while the cache
    is falsy and 1 once it holds a prefix. *)
Lemma invoke_reads_pause_prefix_once
  (ws : WalletService) (ps : ProviderService) (env : Env) (w : World)
  (i : Invocation) :
  count is_pause_prefix_value (awaited w) =
    (if is_falsy (cachedPauseMessagePrefix w) then 0 else 1)%nat ->
  let w' := fst (run env (invoke ws ps i) w) in
  count is_pause_prefix_value (awaited w') =
    (if is_falsy (cachedPauseMessagePrefix w') then 0 else 1)%nat.
Proof.
  intros Hinv.
  destruct (cachedPauseMessagePrefix w) as [cached |] eqn:Hcached;
    cbn in Hinv;
    [destruct (String.eqb cached "") eqn:Hempty |];
    destruct i; cbn;
    repeat progress (rewrite ?Hcached; cbn; rewrite ?Hempty; cbn);
    repeat (branch; repeat progress (rewrite ?Hcached; cbn; rewrite ?Hempty; cbn));
    repeat rewrite count_snoc; cbn; rewrite ?Hinv;
    repeat match goal with
           | H : String.eqb _ _ = _ |- _ => rewrite H
           end;
    reflexivity.
Qed.

Lemma run_all_reads_attest_prefix_once
  (ws : WalletService) (ps : ProviderService) (env : Env)
  (calls : list Invocation) (w : World) :
  count is_attest_prefix_value (awaited w) =
    (if is_falsy (cachedAttestMessagePrefix w) then 0 else 1)%nat ->
  (count is_attest_prefix_value (awaited (run_all ws ps env calls w)) <= 1)%nat.
Proof.
  revert w. induction calls as [| i rest IH]; intros w Hinv; cbn [run_all].
  - rewrite Hinv. destruct (is_falsy (cachedAttestMessagePrefix w)); lia.
  - apply IH. apply invoke_reads_attest_prefix_once. exact Hinv.
Qed.

Lemma run_all_reads_pause_prefix_once
  (ws : WalletService) (ps : ProviderService) (env : Env)
  (calls : list Invocation) (w : World) :
  count is_pause_prefix_value (awaited w) =
    (if is_falsy (cachedPauseMessagePrefix w) then 0 else 1)%nat ->
  (count is_pause_prefix_value (awaited (run_all ws ps env calls w)) <= 1)%nat.
Proof.
  revert w. induction calls as [| i rest IH]; intros w Hinv; cbn [run_all].
  - rewrite Hinv. destruct (is_falsy (cachedPauseMessagePrefix w)); lia.
  - apply IH. apply invoke_reads_pause_prefix_once. exact Hinv.
Qed.

(** C3, as the code has it.  Once a call of [getAttestMessagePrefix] (resp.
    [getPauseMessagePrefix]) has returned a non-empty prefix, then after any
    sequence of calls of the service's methods, run one after the other, the
    cached field still holds that prefix, a further call returns it and
    leaves the process state untouched (nothing is awaited), and the number
    of reads of [ATTEST_MESSAGE_PREFIX] (resp. [PAUSE_MESSAGE_PREFIX]) has
    not grown.  A call whose read is rejected leaves an empty cache empty.
    On a service that starts with an empty cache, over any such sequence of
    calls at most one read of each prefix is answered with a non-empty
    string. *)
Theorem prefix_cached_after_first_successful_read :
  forall (ws : WalletService) (ps : ProviderService) (env : Env) (w : World)
         (calls : list Invocation) (prefix : string),
    (snd (run env getAttestMessagePrefix w) = Ok prefix ->
     prefix <> "" ->
     let w1 := fst (run env getAttestMessagePrefix w) in
     let w2 := run_all ws ps env calls w1 in
     cachedAttestMessagePrefix w2 = Some prefix /\
     run env getAttestMessagePrefix w2 = (w2, Ok prefix) /\
     count is_attest_prefix_read (awaited w2) =
     count is_attest_prefix_read (awaited w1))
    /\
    (snd (run env getPauseMessagePrefix w) = Ok prefix ->
     prefix <> "" ->
     let w1 := fst (run env getPauseMessagePrefix w) in
     let w2 := run_all ws ps env calls w1 in
     cachedPauseMessagePrefix w2 = Some prefix /\
     run env getPauseMessagePrefix w2 = (w2, Ok prefix) /\
     count is_pause_prefix_read (awaited w2) =
     count is_pause_prefix_read (awaited w1))
    /\
    (forall e : JsError,
        cachedAttestMessagePrefix w = None ->
        snd (run env getAttestMessagePrefix w) = Err e ->
        cachedAttestMessagePrefix (fst (run env getAttestMessagePrefix w)) = None)
    /\
    (forall e : JsError,
        cachedPauseMessagePrefix w = None ->
        snd (run env getPauseMessagePrefix w) = Err e ->
        cachedPauseMessagePrefix (fst (run env getPauseMessagePrefix w)) = None)
    /\
    (cachedAttestMessagePrefix w = None ->
     count is_attest_prefix_value (awaited w) = 0%nat ->
     (count is_attest_prefix_value (awaited (run_all ws ps env calls w)) <= 1)%nat)
    /\
    (cachedPauseMessagePrefix w = None ->
     count is_pause_prefix_value (awaited w) = 0%nat ->
     (count is_pause_prefix_value (awaited (run_all ws ps env calls w)) <= 1)%nat).
Proof.
  intros ws ps env w calls prefix.
  split; [| split; [| split; [| split; [| split]]]].
  - intros Hreturned Hprefix w1 w2.
    pose proof (getAttestMessagePrefix_caches env w prefix Hreturned Hprefix) as Hcached.
    destruct (run_all_keeps_attest_prefix ws ps env calls _ prefix Hcached Hprefix)
      as [Hkept Hreads].
    split; [exact Hkept | split; [| exact Hreads]].
    apply getAttestMessagePrefix_cached; assumption.
  - intros Hreturned Hprefix w1 w2.
    pose proof (getPauseMessagePrefix_caches env w prefix Hreturned Hprefix) as Hcached.
    destruct (run_all_keeps_pause_prefix ws ps env calls _ prefix Hcached Hprefix)
      as [Hkept Hreads].
    split; [exact Hkept | split; [| exact Hreads]].
    apply getPauseMessagePrefix_cached; assumption.
  - intros e Hempty. unfold getAttestMessagePrefix. cbn. rewrite Hempty. cbn.
    repeat branch; cbn; intros Hthrown; try discriminate Hthrown; assumption.
  - intros e Hempty. unfold getPauseMessagePrefix. cbn. rewrite Hempty. cbn.
    repeat branch; cbn; intros Hthrown; try discriminate Hthrown; assumption.
  - intros Hempty Hnone. apply run_all_reads_attest_prefix_once.
    rewrite Hempty. exact Hnone.
  - intros Hempty Hnone. apply run_all_reads_pause_prefix_once.
    rewrite Hempty. exact Hnone.
Qed.

(** After a first call on a fresh service, a pause submission, a deposit
    signature and two more calls, the prefix read first is still cached and
    has been read once; a first call whose read times out leaves the cache
    empty. *)
Lemma prefix_cached_after_first_successful_read_witness :
  let calls := [call_pauseDeposits 17000000 1 a_signature;
                call_signDepositData "0xd0" 7 17000000 "0xb10c" 1;
                call_signPauseData 17000000 1;
                call_getAttestMessagePrefix;
                call_getPauseMessagePrefix] in
  cachedAttestMessagePrefix
    (run_all guardian_wallet rpc env_healthy calls
       (fst (run env_healthy getAttestMessagePrefix fresh_world)))
  = Some "0xa77e57"
  /\ cachedPauseMessagePrefix
       (run_all guardian_wallet rpc env_healthy calls
          (fst (run env_healthy getPauseMessagePrefix fresh_world)))
     = Some "0x9a05e"
  /\ cachedAttestMessagePrefix
       (fst (run env_first_read_fails getAttestMessagePrefix fresh_world)) = None
  /\ cachedPauseMessagePrefix
       (fst (run env_first_read_fails getPauseMessagePrefix fresh_world)) = None
  /\ (count is_attest_prefix_value
        (awaited (run_all guardian_wallet rpc env_healthy calls fresh_world)) <= 1)%nat
  /\ (count is_pause_prefix_value
        (awaited (run_all guardian_wallet rpc env_healthy calls fresh_world)) <= 1)%nat.
Proof.
  intros calls.
  destruct (prefix_cached_after_first_successful_read guardian_wallet rpc
              env_healthy fresh_world calls "0xa77e57")
    as [Hattest [_ [_ [_ [Hattest_once Hpause_once]]]]].
  destruct (prefix_cached_after_first_successful_read guardian_wallet rpc
              env_healthy fresh_world calls "0x9a05e")
    as [_ [Hpause _]].
  destruct (prefix_cached_after_first_successful_read guardian_wallet rpc
              env_first_read_fails fresh_world calls "")
    as [_ [_ [Hattest_rejected [Hpause_rejected _]]]].
  split; [| split; [| split; [| split; [| split]]]].
  - apply Hattest; [reflexivity | discriminate].
  - apply Hpause; [reflexivity | discriminate].
  - apply (Hattest_rejected (Error "timeout")); reflexivity.
  - apply (Hpause_rejected (Error "timeout")); reflexivity.
  - apply Hattest_once; reflexivity.
  - apply Hpause_once; reflexivity.
Defined.

(** C3, counterexample.  On a fresh service whose first read of a prefix
    times out, the first call throws and the second call reads the contract
    again: two calls, two reads, and the second call does not return what
    the first did. *)
Lemma prefix_read_again_after_failure :
  (let out := repeat_call env_first_read_fails getAttestMessagePrefix 2 fresh_world in
   snd out = [Err (Error "timeout"); Ok "0xa77e57"] /\
   count is_attest_prefix_read (awaited (fst out)) = 2%nat)
  /\
  (let out := repeat_call env_first_read_fails getPauseMessagePrefix 2 fresh_world in
   snd out = [Err (Error "timeout"); Ok "0x9a05e"] /\
   count is_pause_prefix_read (awaited (fst out)) = 2%nat).
Proof.
  repeat split.
Qed.

(** ** The mutex of pauseDeposits *)

(** Running to completion is advancing to the next [await], settling the
    promise, and running on. *)
Lemma run_advance {R : Type} (env : Env) (p : prog R) (w : World) :
  run env p w =
  match advance p w with
  | (w', Finished outcome) => (w', outcome)
  | (w', Blocked promise k) =>
      let (w1, settled) := settle env promise w' in run env (k settled) w1
  end.
Proof.
  revert w. induction p as [a | e | T op k IH | T promise k IH]; intros w; cbn.
  - reflexivity.
  - reflexivity.
  - destruct (perform op w) as [w' t]. apply IH.
  - reflexivity.
Qed.

Lemma boot_mutex_invariant (w : World) : mutex_invariant (boot w).
Proof.
  left. split; reflexivity.
Qed.

Lemma OneAtTime_mutex_invariant (method : prog unit) (rt : Runtime) :
  mutex_invariant rt -> mutex_invariant (OneAtTime method rt).
Proof.
  intros Hinv. unfold OneAtTime.
  destruct (isExecuting rt) eqn:Hheld; [exact Hinv |].
  destruct Hinv as [[_ Hnone] | [Hset _]]; [| congruence].
  destruct (advance method (world rt)) as [w' [outcome | T promise k]].
  - left. split; [reflexivity | exact Hnone].
  - right. split; [reflexivity |]. cbn. rewrite Hnone. eexists. reflexivity.
Qed.

Lemma resume_mutex_invariant (env : Env) (n : nat) (rt : Runtime) :
  mutex_invariant rt -> mutex_invariant (resume env n rt).
Proof.
  intros Hinv. unfold resume.
  destruct Hinv as [[Hclear Hnone] | [Hset [call Hone]]].
  - rewrite Hnone. destruct n; cbn; left; split; assumption.
  - rewrite Hone. destruct n as [| n]; cbn [nth_error].
    + destruct call as [T promise k].
      destruct (settle env promise (world rt)) as [w1 settled].
      destruct (advance (k settled) w1) as [w2 [outcome | T' promise' k']].
      * left. split; reflexivity.
      * right. split; [exact Hset |]. cbn. eexists. reflexivity.
    + destruct n; cbn; right; split; try assumption; exists call; assumption.
Qed.

Lemma execute_mutex_invariant (ws : WalletService) (ps : ProviderService)
  (env : Env) (actions : list Action) (rt : Runtime) :
  mutex_invariant rt -> mutex_invariant (execute ws ps env actions rt).
Proof.
  revert rt. induction actions as [| a rest IH]; intros rt Hinv; cbn.
  - exact Hinv.
  - apply IH. destruct a as [blockNumber stakingModuleId signature | n]; cbn.
    + apply OneAtTime_mutex_invariant. exact Hinv.
    + apply resume_mutex_invariant. exact Hinv.
Qed.

(** A call that is alone in the runtime, resumed until it ends, leaves the
    process in the state in which [run] leaves it, with the mutex free. *)
Lemma settle_to_completion (ws : WalletService) (ps : ProviderService)
  (env : Env) (p : prog unit) (w : World) :
  exists n : nat,
    execute ws ps env (repeat (Settle 0) n)
      (entered (fst (advance p w)) (snd (advance p w)))
    = boot (fst (run env p w)).
Proof.
  revert w. induction p as [a | e | T op k IH | T promise k IH]; intros w.
  - exists 0%nat. reflexivity.
  - exists 0%nat. reflexivity.
  - cbn [advance run]. destruct (perform op w) as [w' t]. apply IH.
  - cbn [advance run fst snd entered].
    destruct (settle env promise w) as [w1 settled] eqn:Hsettled.
    destruct (IH settled w1) as [n Hn].
    exists (S n). cbn [repeat execute fold_left step].
    unfold resume at 1. cbn [suspended nth_error world].
    rewrite Hsettled.
    destruct (advance (k settled) w1) as [w2 [outcome | T' promise' k']];
      exact Hn.
Qed.

Lemma locked_call_completes (ws : WalletService) (ps : ProviderService)
  (env : Env) (w : World) (blockNumber stakingModuleId : Z)
  (signature : Signature) :
  exists n : nat,
    execute ws ps env
      (Invoke blockNumber stakingModuleId signature :: repeat (Settle 0) n)
      (boot w)
    = boot (fst (run env
                   (pauseDeposits ws ps blockNumber stakingModuleId signature) w)).
Proof.
  destruct (settle_to_completion ws ps env
              (pauseDeposits ws ps blockNumber stakingModuleId signature) w)
    as [n Hn].
  exists n. cbn [execute fold_left step]. unfold OneAtTime at 1.
  cbn [boot isExecuting world suspended].
  destruct (advance (pauseDeposits ws ps blockNumber stakingModuleId signature) w)
    as [w' [outcome | T promise k]]; exact Hn.
Qed.

(** C5.  Whatever calls of [pauseDeposits] are made and in whatever order
    the pending promises settle, at any instant at most one call of the
    method is suspended, so at most one pause transaction is being sent or
    awaiting its confirmation; and a call made while one is pending changes
    nothing: it logs nothing, counts nothing and awaits nothing, so it
    starts no second submission. *)
Theorem pauseDeposits_one_at_a_time :
  forall (ws : WalletService) (ps : ProviderService) (env : Env)
         (actions : list Action) (w : World),
    let rt := execute ws ps env actions (boot w) in
    (length (suspended rt) <= 1)%nat /\
    (in_flight rt <= 1)%nat /\
    forall (blockNumber stakingModuleId : Z) (signature : Signature),
      suspended rt <> [] ->
      step ws ps env (Invoke blockNumber stakingModuleId signature) rt = rt.
Proof.
  intros ws ps env actions w rt.
  pose proof (execute_mutex_invariant ws ps env actions _ (boot_mutex_invariant w))
    as Hinv.
  fold rt in Hinv. unfold in_flight.
  destruct Hinv as [[Hclear Hnone] | [Hset [call Hone]]].
  - rewrite Hnone. cbn. repeat split; try lia.
    intros blockNumber stakingModuleId signature Hpending.
    exfalso. apply Hpending. reflexivity.
  - rewrite Hone. cbn. repeat split; try lia.
    + destruct (is_submitting call); cbn; lia.
    + intros blockNumber stakingModuleId signature _.
      unfold OneAtTime. rewrite Hset. reflexivity.
Qed.

(** A first call is suspended at its first [await]; a second call for
    another block and module leaves the runtime as it is. *)
Lemma pauseDeposits_one_at_a_time_witness :
  let rt := execute guardian_wallet rpc env_healthy
              [Invoke 17000000 1 a_signature] (boot fresh_world) in
  step guardian_wallet rpc env_healthy (Invoke 17000001 2 a_signature) rt = rt.
Proof.
  apply (proj2 (proj2 (pauseDeposits_one_at_a_time guardian_wallet rpc env_healthy
                         [Invoke 17000000 1 a_signature] fresh_world))).
  cbn. discriminate.
Defined.

(** ** Retrying the pause *)

Lemma pauseDeposits_attempt_counted
  (ws : WalletService) (ps : ProviderService) (env : Env) (w : World)
  (blockNumber stakingModuleId : Z) (signature : Signature) :
  pauseAttempts
    (fst (run env (pauseDeposits ws ps blockNumber stakingModuleId signature) w))
  = pauseAttempts w + 1.
Proof.
  unfold pauseDeposits, getContractWithSigner. cbn.
  repeat branch; reflexivity.
Qed.

(** A submission returns as soon as the contract is available, the node
    accepts the transaction and the confirmation arrives, whatever was
    awaited, logged or counted before. *)
Lemma pauseDeposits_returns
  (ws : WalletService) (ps : ProviderService) (env : Env) (w : World)
  (blockNumber stakingModuleId : Z) (signature : Signature)
  (contract : Contract) (tx : ContractTransaction) (receipt : ContractReceipt) :
  let submission :=
    ContractPauseDeposits
      (Contract_connect contract (Wallet_connect (wallet ws) (provider ps)))
      blockNumber stakingModuleId (r signature) (_vs signature) in
  env (awaited w) _ GetCachedDSMContract = Ok contract ->
  env (awaited w ++ [Ev GetCachedDSMContract (Ok contract)]) _ submission = Ok tx ->
  env (awaited w ++ [Ev GetCachedDSMContract (Ok contract); Ev submission (Ok tx)]) _
    (TxWait tx None) = Ok receipt ->
  snd (run env (pauseDeposits ws ps blockNumber stakingModuleId signature) w) = Ok tt.
Proof.
  intros submission Hcontract Hsent Hconfirmed. subst submission.
  unfold pauseDeposits, getContractWithSigner. cbn.
  rewrite Hcontract. cbn. rewrite Hsent. cbn.
  flatten_history. rewrite Hconfirmed. reflexivity.
Qed.










(** With a node that rejects the first two pause transactions, three
    conflicting blocks give three attempts: two fail, a block with a stale
    snapshot in between is skipped, and the third attempt is confirmed. *)
Example loop_retries_over_three_blocks :
  let l := loop_run guardian_wallet rpc (env_rejecting_first 2)
             [NewBlock (conflict_at 17000000); Settlement; Settlement;
              NewBlock (stale_at 17000001);
              NewBlock (conflict_at 17000002); Settlement; Settlement;
              NewBlock (conflict_at 17000003); NewBlock (conflict_at 17000004);
              Settlement; Settlement; Settlement]
             (loop_start fresh_world) in
  submitter l = Idle /\
  isExecuting (runtime l) = false /\
  succeeded l = 1%nat /\
  pauseAttempts (world (runtime l)) = 3 /\
  count is_submission (awaited (world (runtime l))) = 3%nat.
Proof.
  repeat split.
Qed.


(** ** Signing *)

(** With the prefix cached, [signDepositData] awaits one thing only: the
    wallet's signature of the cached prefix and the arguments as given. *)
Lemma signDepositData_forwards (env : Env) (w : World) (prefix : string)
  (depositRoot : string) (keysOpIndex blockNumber : Z) (blockHash : string)
  (stakingModuleId : Z) :
  cachedAttestMessagePrefix w = Some prefix ->
  prefix <> "" ->
  let request :=
    WalletSignDepositData
      {| sd_prefix := prefix;
         sd_depositRoot := depositRoot;
         sd_keysOpIndex := keysOpIndex;
         sd_blockNumber := blockNumber;
         sd_blockHash := blockHash;
         sd_stakingModuleId := stakingModuleId |} in
  run env (signDepositData depositRoot keysOpIndex blockNumber blockHash
             stakingModuleId) w
  = (record_event (Ev request (env (awaited w) _ request)) w,
     env (awaited w) _ request).
Proof.
  intros Hcached Hprefix request. subst request.
  unfold signDepositData. rewrite run_bind.
  rewrite (getAttestMessagePrefix_cached env w prefix Hcached Hprefix). cbn.
  destruct (env (awaited w) Signature _); reflexivity.
Qed.

Lemma signPauseData_forwards (env : Env) (w : World) (prefix : string)
  (blockNumber stakingModuleId : Z) :
  cachedPauseMessagePrefix w = Some prefix ->
  prefix <> "" ->
  let request :=
    WalletSignPauseData
      {| sp_prefix := prefix;
         sp_blockNumber := blockNumber;
         sp_stakingModuleId := stakingModuleId |} in
  run env (signPauseData blockNumber stakingModuleId) w
  = (record_event (Ev request (env (awaited w) _ request)) w,
     env (awaited w) _ request).
Proof.
  intros Hcached Hprefix request. subst request.
  unfold signPauseData. rewrite run_bind.
  rewrite (getPauseMessagePrefix_cached env w prefix Hcached Hprefix). cbn.
  destruct (env (awaited w) Signature _); reflexivity.
Qed.

(** * Further properties of the source *)

(** ** What the methods touch *)

Lemma invoke_counts_pauseDeposits
  (ws : WalletService) (ps : ProviderService) (env : Env) (w : World)
  (i : Invocation) :
  pauseAttempts (fst (run env (invoke ws ps i) w)) =
  pauseAttempts w + (if is_pauseDeposits_call i then 1 else 0).
Proof.
  destruct i; cbn; repeat branch; lia.
Qed.

(** X1.  Over any sequence of calls of the service's methods the
    pause-attempt counter grows by the number of calls of [pauseDeposits] in
    the sequence, whatever the calls return or throw: no other method
    touches the counter and no failure is left uncounted. *)
Theorem pauseAttempts_counts_pauseDeposits_calls :
  forall (ws : WalletService) (ps : ProviderService) (env : Env)
         (calls : list Invocation) (w : World),
    pauseAttempts (run_all ws ps env calls w) =
    pauseAttempts w + Z.of_nat (length (filter is_pauseDeposits_call calls)).
Proof.
  intros ws ps env calls. induction calls as [| i rest IH]; intros w.
  - cbn. lia.
  - cbn [run_all filter]. rewrite IH, invoke_counts_pauseDeposits.
    destruct (is_pauseDeposits_call i); cbn [length]; lia.
Qed.

(** X2.  Only [initialize] and [pauseDeposits] write to the log.  Only
    [getAttestMessagePrefix] and [signDepositData] read
    [ATTEST_MESSAGE_PREFIX] or assign its cached field, and only
    [getPauseMessagePrefix] and [signPauseData] read [PAUSE_MESSAGE_PREFIX]
    or assign its cached field: the two caches are independent of each
    other and of every other method. *)
Theorem methods_footprint :
  forall (ws : WalletService) (ps : ProviderService) (env : Env) (w : World)
         (i : Invocation),
    let w' := fst (run env (invoke ws ps i) w) in
    (logs i = false -> logged w' = logged w)
    /\ (uses_attest_prefix i = false ->
        cachedAttestMessagePrefix w' = cachedAttestMessagePrefix w /\
        count is_attest_prefix_read (awaited w') =
        count is_attest_prefix_read (awaited w))
    /\ (uses_pause_prefix i = false ->
        cachedPauseMessagePrefix w' = cachedPauseMessagePrefix w /\
        count is_pause_prefix_read (awaited w') =
        count is_pause_prefix_read (awaited w)).
Proof.
  intros ws ps env w i.
  destruct i; cbn; repeat branch;
    (split; [| split]); intros Hnot; try discriminate Hnot;
    try reflexivity; (split; [reflexivity | same_reads]).
Qed.

(** Signing a deposit message on a fresh service fills the attest cache and
    leaves the log and the pause cache as they were. *)
Lemma methods_footprint_witness :
  let w' := fst (run env_healthy
                   (invoke guardian_wallet rpc
                      (call_signDepositData "0xd0" 7 17000000 "0xb10c" 1))
                   fresh_world) in
  logged w' = [] /\
  cachedPauseMessagePrefix w' = None /\
  cachedAttestMessagePrefix w' = Some "0xa77e57".
Proof.
  destruct (methods_footprint guardian_wallet rpc env_healthy fresh_world
              (call_signDepositData "0xd0" 7 17000000 "0xb10c" 1))
    as [Hlog [_ Hpause]].
  split; [exact (Hlog eq_refl) |].
  split; [exact (proj1 (Hpause eq_refl)) | reflexivity].
Defined.

(** ** Rejected promises *)

Lemma skipn_past {A : Type} (l l' : list A) : skipn (length l) (l ++ l') = l'.
Proof.
  induction l as [| x l IH]; [reflexivity | exact IH].
Qed.

Ltac since_then :=
  unfold awaited_since; cbn; flatten_history;
  rewrite ?skipn_past, ?skipn_all; cbn.

(** X3.  No method of the service goes on after a rejected promise and none
    swallows it: of the calls a method awaits only the last one can be
    rejected, and then the method throws that very error.  The only error a
    method raises by itself is the overflow of [getMaxDeposits]: a call
    either returns, or throws the error of the promise it awaited last, or
    is a call of [getMaxDeposits] to which the contract answered with a
    number outside the safe integer range, and then it throws
    [Error "overflow"]. *)
Theorem rejection_ends_the_call :
  forall (ws : WalletService) (ps : ProviderService) (env : Env) (w : World)
         (i : Invocation),
    let out := run env (invoke ws ps i) w in
    let calls := awaited_since w (fst out) in
    awaited (fst out) = awaited w ++ calls
    /\ forallb is_fulfilled (removelast calls) = true
    /\ (forall e : JsError, last_rejection calls = Some e -> snd out = Err e)
    /\ (snd out = Ok tt
        \/ (exists e : JsError,
              last_rejection calls = Some e /\ snd out = Err e)
        \/ (exists (blockTag : option BlockTag) (contract : Contract) (n : Z),
              i = call_getMaxDeposits blockTag /\
              calls = [Ev GetCachedDSMContract (Ok contract);
                       Ev (ContractGetMaxDeposits contract blockTag) (Ok n)] /\
              MAX_SAFE_INTEGER < Z.abs n /\
              snd out = Err (Error "overflow"))).
Proof.
  intros ws ps env w i.
  destruct i; cbn; repeat branch; since_then;
    (split; [try rewrite app_nil_r; reflexivity |]);
    (split; [reflexivity |]);
    (split; [intros err Herr; try discriminate Herr; congruence |]);
    first [ left; reflexivity
          | right; left; eexists; split; reflexivity
          | right; right; eexists _, _, _;
            split; [reflexivity |];
            split; [reflexivity |];
            split; [apply Z.leb_gt; assumption | reflexivity] ].
Qed.

(** The guardian list cannot be read: [getGuardianIndex] throws the error of
    the read. *)
Lemma rejection_ends_the_call_witness :
  let out := run env_guardians_unreadable
               (invoke guardian_wallet rpc (call_getGuardianIndex None))
               fresh_world in
  snd out = Err (Error "timeout").
Proof.
  destruct (rejection_ends_the_call guardian_wallet rpc env_guardians_unreadable
              fresh_world (call_getGuardianIndex None))
    as [_ [_ [Hthrown _]]].
  apply Hthrown. reflexivity.
Defined.

(** ** initialize *)

(** X4.  When the guardian list at the block tag is read, [initialize]
    returns after writing exactly one entry to the log: a warning that the
    address is not in the guardian list when the wallet's address is not in
    the list, and otherwise a plain entry that it is; both carry the
    address.  When [initialize] throws it has logged nothing. *)
Theorem initialize_reports_membership :
  forall (ws : WalletService) (env : Env) (w : World) (blockTag : BlockTag),
    let out := run env (initialize ws blockTag) w in
    (forall (contract : Contract) (guardians : list string),
        env (awaited w) _ GetCachedDSMContract = Ok contract ->
        env (awaited w ++ [Ev GetCachedDSMContract (Ok contract)]) _
          (ContractGetGuardians contract (Some blockTag)) = Ok guardians ->
        snd out = Ok tt /\
        (In (address ws) guardians ->
         logged (fst out) = logged w ++
           [notice "Your address is in the Guardian List"
              [("address", address ws)]]) /\
        (~ In (address ws) guardians ->
         logged (fst out) = logged w ++
           [warning "Your address is not in the Guardian List"
              [("address", address ws)]]))
    /\ (forall e : JsError, snd out = Err e -> logged (fst out) = logged w).
Proof.
  intros ws env w blockTag out. subst out. split.
  - intros contract guardians Hcontract Hguardians.
    unfold initialize, getGuardianIndex, getGuardians. cbn.
    rewrite Hcontract. cbn. rewrite Hguardians. cbn.
    pose proof (indexOf_from_absent guardians (address ws) 0 ltac:(lia)) as Habsent.
    fold (indexOf guardians (address ws)) in Habsent.
    destruct (Z.eqb_spec (indexOf guardians (address ws)) (-1)) as [Heq | Hneq]; cbn.
    + split; [reflexivity |]. split; [| reflexivity].
      intros Hin. exfalso. exact (proj1 Habsent Heq Hin).
    + split; [reflexivity |]. split; [reflexivity |].
      intros Hout. exfalso. exact (Hneq (proj2 Habsent Hout)).
  - intros err. unfold initialize, getGuardianIndex, getGuardians. cbn.
    repeat branch; intros Herr; try discriminate Herr; reflexivity.
Qed.

(** The wallet of the fixture is a guardian; a wallet with another address
    is warned; when the list cannot be read nothing is logged. *)
Lemma initialize_reports_membership_witness :
  logged (fst (run env_healthy
                 (initialize guardian_wallet (TagNumber 17000000)) fresh_world))
  = [notice "Your address is in the Guardian List" [("address", "0xGuardian2")]]
  /\
  logged (fst (run env_healthy
                 (initialize {| wallet := wallet guardian_wallet;
                                address := "0xStranger" |}
                    (TagNumber 17000000)) fresh_world))
  = [warning "Your address is not in the Guardian List"
       [("address", "0xStranger")]]
  /\
  logged (fst (run env_guardians_unreadable
                 (initialize guardian_wallet (TagNumber 17000000)) fresh_world))
  = [].
Proof.
  split; [| split].
  - destruct (proj1 (initialize_reports_membership guardian_wallet env_healthy
                       fresh_world (TagNumber 17000000))
                dsm ["0xGuardian1"; "0xGuardian2"; "0xGuardian3"]
                eq_refl eq_refl) as [_ [Hin _]].
    apply Hin. right. left. reflexivity.
  - destruct (proj1 (initialize_reports_membership
                       {| wallet := wallet guardian_wallet;
                          address := "0xStranger" |}
                       env_healthy fresh_world (TagNumber 17000000))
                dsm ["0xGuardian1"; "0xGuardian2"; "0xGuardian3"]
                eq_refl eq_refl) as [_ [_ Hout]].
    apply Hout. cbn. intros [H | [H | [H | []]]]; discriminate H.
  - apply (proj2 (initialize_reports_membership guardian_wallet
                    env_guardians_unreadable fresh_world (TagNumber 17000000))
             (Error "timeout")).
    reflexivity.
Defined.

(** ** The log of pauseDeposits *)

(** X5.  The log tells how far a pause went.  Every run of [pauseDeposits]
    first warns that it tries to pause.  It warns that the transaction was
    sent, with the hash of the transaction, and that it waits for the
    confirmation exactly when the node accepted the transaction; and it
    warns that the confirmation was received exactly when it returns.  So a
    run is one of four, told apart by what was awaited: the contract was
    not available or the node rejected the transaction, and the first
    warning stands alone; the confirmation was rejected, and the first
    three warnings are logged; the confirmation arrived, and all four
    are. *)
Theorem pauseDeposits_log_trail :
  forall (ws : WalletService) (ps : ProviderService) (env : Env) (w : World)
         (blockNumber stakingModuleId : Z) (signature : Signature),
    let out := run env (pauseDeposits ws ps blockNumber stakingModuleId signature) w in
    let signer := Wallet_connect (wallet ws) (provider ps) in
    let submission := fun contract =>
      ContractPauseDeposits (Contract_connect contract signer)
        blockNumber stakingModuleId (r signature) (_vs signature) in
    (exists (contract : Contract) (tx : ContractTransaction)
            (receipt : ContractReceipt),
        snd out = Ok tt /\
        awaited (fst out) = awaited w ++
          [Ev GetCachedDSMContract (Ok contract);
           Ev (submission contract) (Ok tx);
           Ev (TxWait tx None) (Ok receipt)] /\
        logged (fst out) = logged w ++
          [warning "Try to pause deposits" [];
           warning "Pause transaction sent" [("txHash", hash tx)];
           warning "Waiting for block confirmation" [];
           warning "Block confirmation received" []])
    \/ (exists (contract : Contract) (tx : ContractTransaction) (e : JsError),
          snd out = Err e /\
          awaited (fst out) = awaited w ++
            [Ev GetCachedDSMContract (Ok contract);
             Ev (submission contract) (Ok tx);
             Ev (TxWait tx None) (Err e)] /\
          logged (fst out) = logged w ++
            [warning "Try to pause deposits" [];
             warning "Pause transaction sent" [("txHash", hash tx)];
             warning "Waiting for block confirmation" []])
    \/ (exists (contract : Contract) (e : JsError),
          snd out = Err e /\
          awaited (fst out) = awaited w ++
            [Ev GetCachedDSMContract (Ok contract);
             Ev (submission contract) (Err e)] /\
          logged (fst out) = logged w ++ [warning "Try to pause deposits" []])
    \/ (exists e : JsError,
          snd out = Err e /\
          awaited (fst out) = awaited w ++ [Ev GetCachedDSMContract (Err e)] /\
          logged (fst out) = logged w ++ [warning "Try to pause deposits" []]).
Proof.
  intros ws ps env w blockNumber stakingModuleId signature out signer submission.
  subst out submission signer.
  unfold pauseDeposits, getContractWithSigner. cbn.
  settle_next; [settle_next; [settle_next |] |].
  - left. eexists _, _, _. split; [reflexivity |].
    flatten_history. split; reflexivity.
  - right. left. eexists _, _, _. split; [reflexivity |].
    flatten_history. split; reflexivity.
  - right. right. left. eexists _, _. split; [reflexivity |].
    flatten_history. split; reflexivity.
  - right. right. right. eexists. split; [reflexivity |]. split; reflexivity.
Qed.

(** ** Signing with the cached prefix *)

Lemma signDepositData_returned (env : Env) (w : World)
  (depositRoot : string) (keysOpIndex blockNumber : Z) (blockHash : string)
  (stakingModuleId : Z) (signature : Signature) :
  snd (run env (signDepositData depositRoot keysOpIndex blockNumber blockHash
                  stakingModuleId) w) = Ok signature ->
  exists prefix : string,
    snd (run env getAttestMessagePrefix w) = Ok prefix /\
    fst (run env (signDepositData depositRoot keysOpIndex blockNumber blockHash
                    stakingModuleId) w)
    = record_event
        (Ev (WalletSignDepositData
               {| sd_prefix := prefix;
                  sd_depositRoot := depositRoot;
                  sd_keysOpIndex := keysOpIndex;
                  sd_blockNumber := blockNumber;
                  sd_blockHash := blockHash;
                  sd_stakingModuleId := stakingModuleId |})
            (Ok signature))
        (fst (run env getAttestMessagePrefix w)).
Proof.
  unfold signDepositData. rewrite run_bind.
  destruct (run env getAttestMessagePrefix w) as [w1 [prefix | e]];
    [| discriminate].
  cbn. destruct (env (awaited w1) Signature _) as [signed | e] eqn:Hsigned; cbn;
    [| discriminate].
  intros Hreturned. injection Hreturned as Hreturned. subst signed.
  exists prefix. split; reflexivity.
Qed.

Lemma signPauseData_returned (env : Env) (w : World)
  (blockNumber stakingModuleId : Z) (signature : Signature) :
  snd (run env (signPauseData blockNumber stakingModuleId) w) = Ok signature ->
  exists prefix : string,
    snd (run env getPauseMessagePrefix w) = Ok prefix /\
    fst (run env (signPauseData blockNumber stakingModuleId) w)
    = record_event
        (Ev (WalletSignPauseData
               {| sp_prefix := prefix;
                  sp_blockNumber := blockNumber;
                  sp_stakingModuleId := stakingModuleId |})
            (Ok signature))
        (fst (run env getPauseMessagePrefix w)).
Proof.
  unfold signPauseData. rewrite run_bind.
  destruct (run env getPauseMessagePrefix w) as [w1 [prefix | e]];
    [| discriminate].
  cbn. destruct (env (awaited w1) Signature _) as [signed | e] eqn:Hsigned; cbn;
    [| discriminate].
  intros Hreturned. injection Hreturned as Hreturned. subst signed.
  exists prefix. split; reflexivity.
Qed.

(** X6.  A call of [signDepositData] (resp. [signPauseData]) that returns a
    signature has asked the wallet to sign with the prefix that
    [getAttestMessagePrefix] (resp. [getPauseMessagePrefix]) returns.  When that
    prefix is not empty it is cached from then on: every later call, with
    whatever arguments, awaits nothing but the wallet and hands it the same
    prefix together with its own arguments, and returns what the wallet
    answers. *)
Theorem signing_reuses_the_prefix :
  forall (env : Env) (w : World),
    (forall (depositRoot : string) (keysOpIndex blockNumber : Z)
            (blockHash : string) (stakingModuleId : Z) (signature : Signature),
        let first := run env (signDepositData depositRoot keysOpIndex blockNumber
                                blockHash stakingModuleId) w in
        snd first = Ok signature ->
        exists (prefix : string) (history : list Event),
          snd (run env getAttestMessagePrefix w) = Ok prefix /\
          awaited (fst first) = history ++
            [Ev (WalletSignDepositData
                   {| sd_prefix := prefix;
                      sd_depositRoot := depositRoot;
                      sd_keysOpIndex := keysOpIndex;
                      sd_blockNumber := blockNumber;
                      sd_blockHash := blockHash;
                      sd_stakingModuleId := stakingModuleId |})
                (Ok signature)] /\
          (prefix <> "" ->
           forall (depositRoot' : string) (keysOpIndex' blockNumber' : Z)
                  (blockHash' : string) (stakingModuleId' : Z),
             let request :=
               WalletSignDepositData
                 {| sd_prefix := prefix;
                    sd_depositRoot := depositRoot';
                    sd_keysOpIndex := keysOpIndex';
                    sd_blockNumber := blockNumber';
                    sd_blockHash := blockHash';
                    sd_stakingModuleId := stakingModuleId' |} in
             run env (signDepositData depositRoot' keysOpIndex' blockNumber'
                        blockHash' stakingModuleId') (fst first)
             = (record_event
                  (Ev request (env (awaited (fst first)) _ request)) (fst first),
                env (awaited (fst first)) _ request)))
    /\
    (forall (blockNumber stakingModuleId : Z) (signature : Signature),
        let first := run env (signPauseData blockNumber stakingModuleId) w in
        snd first = Ok signature ->
        exists (prefix : string) (history : list Event),
          snd (run env getPauseMessagePrefix w) = Ok prefix /\
          awaited (fst first) = history ++
            [Ev (WalletSignPauseData
                   {| sp_prefix := prefix;
                      sp_blockNumber := blockNumber;
                      sp_stakingModuleId := stakingModuleId |})
                (Ok signature)] /\
          (prefix <> "" ->
           forall (blockNumber' stakingModuleId' : Z),
             let request :=
               WalletSignPauseData
                 {| sp_prefix := prefix;
                    sp_blockNumber := blockNumber';
                    sp_stakingModuleId := stakingModuleId' |} in
             run env (signPauseData blockNumber' stakingModuleId') (fst first)
             = (record_event
                  (Ev request (env (awaited (fst first)) _ request)) (fst first),
                env (awaited (fst first)) _ request))).
Proof.
  intros env w. split.
  - intros depositRoot keysOpIndex blockNumber blockHash stakingModuleId
      signature first Hreturned. subst first.
    destruct (signDepositData_returned env w _ _ _ _ _ _ Hreturned)
      as [prefix [Hprefix Hworld]].
    exists prefix. eexists. rewrite Hworld. split; [exact Hprefix |].
    split; [reflexivity |].
    intros Hnot_empty depositRoot' keysOpIndex' blockNumber' blockHash'
      stakingModuleId'.
    apply (signDepositData_forwards env _ prefix); [| exact Hnot_empty].
    exact (getAttestMessagePrefix_caches env w prefix Hprefix Hnot_empty).
  - intros blockNumber stakingModuleId signature first Hreturned. subst first.
    destruct (signPauseData_returned env w _ _ _ Hreturned)
      as [prefix [Hprefix Hworld]].
    exists prefix. eexists. rewrite Hworld. split; [exact Hprefix |].
    split; [reflexivity |].
    intros Hnot_empty blockNumber' stakingModuleId'.
    apply (signPauseData_forwards env _ prefix); [| exact Hnot_empty].
    exact (getPauseMessagePrefix_caches env w prefix Hprefix Hnot_empty).
Qed.

(** On a fresh service the first deposit signature reads the prefix; a
    second one, for another block and module, goes straight to the wallet
    with the same prefix. *)
Lemma signing_reuses_the_prefix_witness :
  let w1 := fst (run env_healthy
                   (signDepositData "0xd0" 7 17000000 "0xb10c" 1) fresh_world) in
  let request :=
    WalletSignDepositData
      {| sd_prefix := "0xa77e57";
         sd_depositRoot := "0xd1";
         sd_keysOpIndex := 8;
         sd_blockNumber := 17000001;
         sd_blockHash := "0xb10d";
         sd_stakingModuleId := 2 |} in
  run env_healthy (signDepositData "0xd1" 8 17000001 "0xb10d" 2) w1
  = (record_event (Ev request (Ok a_signature)) w1, Ok a_signature).
Proof.
  intros w1 request.
  destruct (proj1 (signing_reuses_the_prefix env_healthy fresh_world)
              "0xd0" 7 17000000 "0xb10c" 1 a_signature eq_refl)
    as [prefix [history [Hprefix [_ Hreuse]]]].
  injection Hprefix as Hprefix. subst prefix.
  exact (Hreuse ltac:(discriminate) "0xd1" 8 17000001 "0xb10d" 2).
Defined.

(** ** Overlapping reads of the prefix *)

Lemma getAttestMessagePrefix_starts (w : World) :
  is_falsy (cachedAttestMessagePrefix w) = true ->
  advance getAttestMessagePrefix w = (w, attest_fetching_contract).
Proof.
  intros Hempty. unfold getAttestMessagePrefix. cbn. rewrite Hempty.
  reflexivity.
Qed.

(** One settled promise moves a call from one place to the next, and the
    prefix has been read exactly when the call has ended past the read. *)
Lemma deliver_phase (env : Env) (phase : AttestPhase) (w : World) :
  exists phase' : AttestPhase,
    snd (deliver env (status_of phase) w) = status_of phase' /\
    (count is_attest_prefix_read
       (awaited (fst (deliver env (status_of phase) w)))
     + reads_of phase
     = count is_attest_prefix_read (awaited w) + reads_of phase')%nat.
Proof.
  destruct phase as [| contract | e | outcome]; cbn.
  - destruct (env (awaited w) Contract GetCachedDSMContract) as [c | e].
    + exists (reading_prefix c). split; [reflexivity | cbn; same_reads].
    + exists (ended_unread e). split; [reflexivity | cbn; same_reads].
  - destruct (env (awaited w) string (ATTEST_MESSAGE_PREFIX contract))
      as [prefix | e].
    + exists (ended_read (Ok prefix)). split; [reflexivity | cbn; same_reads].
    + exists (ended_read (Err e)). split; [reflexivity | cbn; same_reads].
  - exists (ended_unread e). split; reflexivity.
  - exists (ended_read outcome). split; reflexivity.
Qed.

Lemma overlap_phases (env : Env) (schedule : list bool) :
  forall (first second : AttestPhase) (w : World),
  exists first' second' : AttestPhase,
    snd (overlap env schedule (status_of first) (status_of second) w)
    = (status_of first', status_of second') /\
    (count is_attest_prefix_read
       (awaited (fst (overlap env schedule (status_of first)
                        (status_of second) w)))
     + reads_of first + reads_of second
     = count is_attest_prefix_read (awaited w)
       + reads_of first' + reads_of second')%nat.
Proof.
  induction schedule as [| turn rest IH]; intros first second w.
  - exists first, second. split; reflexivity.
  - cbn [overlap]. destruct turn.
    + destruct (deliver_phase env first w) as [first1 [Hstatus Hreads]].
      destruct (deliver env (status_of first) w) as [w1 a1].
      cbn [fst snd] in Hstatus, Hreads. subst a1.
      destruct (IH first1 second w1) as [first' [second' [Hend Hcount]]].
      exists first', second'. split; [exact Hend | lia].
    + destruct (deliver_phase env second w) as [second1 [Hstatus Hreads]].
      destruct (deliver env (status_of second) w) as [w1 b1].
      cbn [fst snd] in Hstatus, Hreads. subst b1.
      destruct (IH first second1 w1) as [first' [second' [Hend Hcount]]].
      exists first', second'. split; [exact Hend | lia].
Qed.

Lemma returned_after_read (phase : AttestPhase) (prefix : string) :
  status_of phase = Finished (Ok prefix) -> reads_of phase = 1%nat.
Proof.
  destruct phase; cbn; intros H; try discriminate H; reflexivity.
Qed.

(** X7.  The cache does not keep overlapping calls from reading twice.  When
    two calls of [getAttestMessagePrefix] are made on an empty cache before
    the promises of the first have settled, then in whatever order the
    promises settle, if both calls return a prefix, [ATTEST_MESSAGE_PREFIX]
    has been read from the contract twice. *)
Theorem overlapping_calls_both_read :
  forall (env : Env) (schedule : list bool) (w : World)
         (first second : string),
    is_falsy (cachedAttestMessagePrefix w) = true ->
    snd (call_both env schedule getAttestMessagePrefix getAttestMessagePrefix w)
    = (Finished (Ok first), Finished (Ok second)) ->
    count is_attest_prefix_read
      (awaited (fst (call_both env schedule getAttestMessagePrefix
                       getAttestMessagePrefix w)))
    = (count is_attest_prefix_read (awaited w) + 2)%nat.
Proof.
  intros env schedule w first second Hempty.
  unfold call_both.
  rewrite (getAttestMessagePrefix_starts w Hempty).
  rewrite (getAttestMessagePrefix_starts w Hempty).
  change attest_fetching_contract with (status_of fetching_contract).
  destruct (overlap_phases env schedule fetching_contract fetching_contract w)
    as [first' [second' [Hend Hcount]]].
  rewrite Hend. intros Hreturned. injection Hreturned as Hfirst Hsecond.
  apply returned_after_read in Hfirst. apply returned_after_read in Hsecond.
  cbn [reads_of] in Hcount. lia.
Qed.

(** Both contract fetches settle first, then both reads: each call returns
    the prefix, and the contract has been read twice. *)
Lemma overlapping_calls_both_read_witness :
  count is_attest_prefix_read
    (awaited (fst (call_both env_healthy [true; false; true; false]
                     getAttestMessagePrefix getAttestMessagePrefix fresh_world)))
  = 2%nat.
Proof.
  apply (overlapping_calls_both_read env_healthy [true; false; true; false]
           fresh_world "0xa77e57" "0xa77e57"); reflexivity.
Defined.

(** ** The guardian index when the list changes *)

Lemma indexOf_from_shift (xs : list string) (x : string) (i d : Z) :
  0 <= i ->
  indexOf_from xs x (i + d) =
  if indexOf_from xs x i =? -1 then -1 else indexOf_from xs x i + d.
Proof.
  revert i. induction xs as [| y ys IH]; intros i Hi; cbn [indexOf_from].
  - reflexivity.
  - destruct (String.eqb y x).
    + destruct (Z.eqb_spec i (-1)); [lia | reflexivity].
    + replace (i + d + 1) with (i + 1 + d) by lia. apply IH. lia.
Qed.

Lemma indexOf_from_app_present (xs ys : list string) (x : string) (i : Z) :
  In x xs -> indexOf_from (xs ++ ys) x i = indexOf_from xs x i.
Proof.
  revert i. induction xs as [| y xs IH]; intros i Hin; [destruct Hin |].
  cbn [app indexOf_from]. destruct (String.eqb_spec y x) as [Heq | Hneq].
  - reflexivity.
  - apply IH. destruct Hin as [Hin | Hin]; [contradiction | exact Hin].
Qed.

Lemma indexOf_from_app_absent (xs ys : list string) (x : string) (i : Z) :
  ~ In x xs ->
  indexOf_from (xs ++ ys) x i = indexOf_from ys x (i + Z.of_nat (length xs)).
Proof.
  revert i. induction xs as [| y xs IH]; intros i Hout.
  - cbn. rewrite Z.add_0_r. reflexivity.
  - cbn [app indexOf_from length]. destruct (String.eqb_spec y x) as [Heq | Hneq].
    + exfalso. apply Hout. left. exact Heq.
    + rewrite IH by (intros Hin; apply Hout; right; exact Hin).
      f_equal. lia.
Qed.

(** X8.  Guardians appended to the list do not move the ones already in it:
    when the list read at one block is [guardians] and the list read at
    another block is [guardians ++ added], a wallet that is in [guardians]
    gets the same index at both blocks; a wallet that is not gets, at the
    second block, [-1] if it is not in [added] either, and otherwise its
    position in [added] plus the length of [guardians]. *)
Theorem getGuardianIndex_after_append :
  forall (ws : WalletService) (env env' : Env) (w w' : World)
         (blockTag blockTag' : option BlockTag) (contract contract' : Contract)
         (guardians added : list string),
    env (awaited w) _ GetCachedDSMContract = Ok contract ->
    env (awaited w ++ [Ev GetCachedDSMContract (Ok contract)]) _
      (ContractGetGuardians contract blockTag) = Ok guardians ->
    env' (awaited w') _ GetCachedDSMContract = Ok contract' ->
    env' (awaited w' ++ [Ev GetCachedDSMContract (Ok contract')]) _
      (ContractGetGuardians contract' blockTag') = Ok (guardians ++ added) ->
    (In (address ws) guardians ->
     snd (run env' (getGuardianIndex ws blockTag') w') =
     snd (run env (getGuardianIndex ws blockTag) w))
    /\
    (~ In (address ws) guardians ->
     snd (run env (getGuardianIndex ws blockTag) w) = Ok (-1) /\
     snd (run env' (getGuardianIndex ws blockTag') w') =
     Ok (if indexOf added (address ws) =? -1 then -1
         else Z.of_nat (length guardians) + indexOf added (address ws))).
Proof.
  intros ws env env' w w' blockTag blockTag' contract contract' guardians added
    Hcontract Hguardians Hcontract' Hguardians'.
  unfold getGuardianIndex, getGuardians. cbn.
  rewrite Hcontract, Hcontract'. cbn. rewrite Hguardians, Hguardians'. cbn.
  unfold indexOf. split.
  - intros Hin. rewrite indexOf_from_app_present by exact Hin. reflexivity.
  - intros Hout. split.
    + f_equal. apply indexOf_from_absent; [lia | exact Hout].
    + f_equal. rewrite indexOf_from_app_absent by exact Hout.
      rewrite indexOf_from_shift by lia.
      destruct (indexOf_from added (address ws) 0 =? -1); [reflexivity | lia].
Qed.

(** Two guardians are appended to the list of the fixture: the wallet keeps
    index 1, and a wallet that is the first of the new ones gets index 3. *)
Lemma getGuardianIndex_after_append_witness :
  snd (run (env_with_guardians
              ["0xGuardian1"; "0xGuardian2"; "0xGuardian3"; "0xNew1"; "0xNew2"])
         (getGuardianIndex guardian_wallet None) fresh_world) = Ok 1
  /\
  snd (run (env_with_guardians
              ["0xGuardian1"; "0xGuardian2"; "0xGuardian3"; "0xNew1"; "0xNew2"])
         (getGuardianIndex {| wallet := wallet guardian_wallet;
                              address := "0xNew1" |} None) fresh_world) = Ok 3.
Proof.
  pose (grown := ["0xGuardian1"; "0xGuardian2"; "0xGuardian3"; "0xNew1"; "0xNew2"]).
  split.
  - transitivity (snd (run env_healthy (getGuardianIndex guardian_wallet None)
                         fresh_world)); [| reflexivity].
    apply (proj1 (getGuardianIndex_after_append guardian_wallet
                    env_healthy (env_with_guardians grown) fresh_world fresh_world
                    None None dsm dsm
                    ["0xGuardian1"; "0xGuardian2"; "0xGuardian3"]
                    ["0xNew1"; "0xNew2"] eq_refl eq_refl eq_refl eq_refl)).
    right. left. reflexivity.
  - apply (proj2 (getGuardianIndex_after_append
                    {| wallet := wallet guardian_wallet; address := "0xNew1" |}
                    env_healthy (env_with_guardians grown) fresh_world fresh_world
                    None None dsm dsm
                    ["0xGuardian1"; "0xGuardian2"; "0xGuardian3"]
                    ["0xNew1"; "0xNew2"] eq_refl eq_refl eq_refl eq_refl)).
    cbn. intros [H | [H | [H | []]]]; discriminate H.
Defined.

(** ** Attempts, transactions and confirmations *)

Lemma invoke_accounts
  (ws : WalletService) (ps : ProviderService) (env : Env) (w : World)
  (i : Invocation) :
  let w' := fst (run env (invoke ws ps i) w) in
  (count is_confirmation (awaited w') + count is_wait (awaited w)
   <= count is_confirmation (awaited w) + count is_wait (awaited w'))%nat
  /\ (count is_wait (awaited w') + count is_accepted_submission (awaited w)
      = count is_wait (awaited w) + count is_accepted_submission (awaited w'))%nat
  /\ (count is_accepted_submission (awaited w') + count is_submission (awaited w)
      <= count is_accepted_submission (awaited w)
         + count is_submission (awaited w'))%nat
  /\ Z.of_nat (count is_submission (awaited w')) + pauseAttempts w
     <= Z.of_nat (count is_submission (awaited w)) + pauseAttempts w'.
Proof.
  destruct i; cbn; repeat branch; repeat rewrite count_snoc; cbn;
    repeat split; lia.
Qed.

(** X9.  Over any sequence of calls of the service's methods: a
    confirmation is awaited once for every pause transaction the node
    accepted and never otherwise; the confirmations that arrived are at most
    the waits, the accepted transactions at most the transactions
    submitted, and the transactions submitted at most the growth of the
    pause-attempt counter. *)
Theorem attempts_bound_transactions :
  forall (ws : WalletService) (ps : ProviderService) (env : Env)
         (calls : list Invocation) (w : World),
    let w' := run_all ws ps env calls w in
    (count is_confirmation (awaited w') + count is_wait (awaited w)
     <= count is_confirmation (awaited w) + count is_wait (awaited w'))%nat
    /\ (count is_wait (awaited w') + count is_accepted_submission (awaited w)
        = count is_wait (awaited w) + count is_accepted_submission (awaited w'))%nat
    /\ (count is_accepted_submission (awaited w') + count is_submission (awaited w)
        <= count is_accepted_submission (awaited w)
           + count is_submission (awaited w'))%nat
    /\ Z.of_nat (count is_submission (awaited w')) + pauseAttempts w
       <= Z.of_nat (count is_submission (awaited w)) + pauseAttempts w'.
Proof.
  intros ws ps env calls. induction calls as [| i rest IH]; intros w.
  - cbn. repeat split; lia.
  - cbn [run_all].
    pose proof (invoke_accounts ws ps env w i) as Hstep.
    pose proof (IH (fst (run env (invoke ws ps i) w))) as Hrest.
    cbn zeta in Hstep, Hrest |- *.
    destruct Hstep as [H1 [H2 [H3 H4]]]. destruct Hrest as [H1' [H2' [H3' H4']]].
    repeat split; lia.
Qed.

(** ** The health probe *)

(** X10.  [getBlockTimestamp] cannot tell a failure from a block: it awaits
    [getBlock] exactly once and touches nothing else, and it returns the
    timestamp of the block when there is one and [-1] both when the call is
    rejected and when the call answers without a block. *)
Theorem getBlockTimestamp_answers :
  forall (env : Env) (w : World),
    let out := run env getBlockTimestamp w in
    let answer := env (awaited w) _ ProviderGetBlock in
    fst out = record_event (Ev ProviderGetBlock answer) w
    /\ (forall block : Block, answer = Ok (Some block) ->
                              snd out = Ok (timestamp block))
    /\ (answer = Ok None -> snd out = Ok (-1))
    /\ (forall e : JsError, answer = Err e -> snd out = Ok (-1)).
Proof.
  intros env w out answer. subst out answer.
  rewrite getBlockTimestamp_returns. cbn [fst snd].
  split; [reflexivity |].
  split; [intros block H | split; [intros H | intros e H]];
    rewrite H; reflexivity.
Qed.

(** The provider of the fixture answers with a block of 1700000000 s; an
    unreachable provider and a provider without a block both give [-1]. *)
Lemma getBlockTimestamp_answers_witness :
  snd (run env_healthy getBlockTimestamp fresh_world) = Ok 1700000000
  /\ snd (run env_no_provider getBlockTimestamp fresh_world) = Ok (-1)
  /\ snd (run env_no_block getBlockTimestamp fresh_world) = Ok (-1).
Proof.
  split; [| split].
  - apply (proj1 (proj2 (getBlockTimestamp_answers env_healthy fresh_world))
             a_block).
    reflexivity.
  - apply (proj2 (proj2 (proj2 (getBlockTimestamp_answers env_no_provider
                                  fresh_world)))
             (Error "could not detect network")).
    reflexivity.
  - apply (proj1 (proj2 (proj2 (getBlockTimestamp_answers env_no_block
                                  fresh_world)))).
    reflexivity.
Defined.

(** X11.  For a block with timestamp [t] (in seconds), [isHealthy]
    returns exactly when the clock (in milliseconds) is
    in the window from [(t - MAX_BLOCK_DELAY_SECONDS + 1) * 1000] up to, but
    not including, [(t + MAX_BLOCK_DELAY_SECONDS) * 1000]: a block from the
    future counts like an old one, and the fraction of the current second
    is dropped before comparing.  Whatever the outcome, a probe awaits
    [getBlock] once and changes nothing else. *)
Theorem isHealthy_window :
  forall (MAX_BLOCK_DELAY_SECONDS : Z) (env : Env) (w : World) (key : string)
         (block : Block),
    env (awaited w) _ ProviderGetBlock = Ok (Some block) ->
    let out := run env (isHealthy MAX_BLOCK_DELAY_SECONDS key) w in
    fst out = record_event (Ev ProviderGetBlock (Ok (Some block))) w
    /\ ((exists result, snd out = Ok result) <->
        (timestamp block - MAX_BLOCK_DELAY_SECONDS + 1) * 1000 <= now_ms w
        < (timestamp block + MAX_BLOCK_DELAY_SECONDS) * 1000).
Proof.
  intros MAX env w key block Hblock out. subst out.
  unfold isHealthy. rewrite run_bind, getBlockTimestamp_returns, Hblock. cbn.
  assert (Hdiv : now_ms w = 1000 * (now_ms w / 1000) + now_ms w mod 1000)
    by (apply Z.div_mod; lia).
  assert (Hmod : 0 <= now_ms w mod 1000 < 1000)
    by (apply Z.mod_pos_bound; lia).
  destruct (Z.ltb_spec (Z.abs (now_ms w / 1000 - timestamp block)) MAX)
    as [Hrecent | Hlate]; cbn.
  - split; [reflexivity |]. split; [intros _; lia |].
    intros _. eexists. reflexivity.
  - split; [reflexivity |]. split.
    + intros [result Hresult]. discriminate Hresult.
    + intros Hwindow. exfalso. lia.
Qed.

(** With the block of 1700000000 s and a limit of 600 s the clock of the
    fixture, 1700000012345 ms, is inside the window. *)
Lemma isHealthy_window_witness :
  exists result,
    snd (run env_healthy (isHealthy 600 "provider") fresh_world) = Ok result.
Proof.
  apply (proj2 (isHealthy_window 600 env_healthy fresh_world "provider" a_block
                  eq_refl)).
  cbn. lia.
Defined.

(** ** The configuration and the compose file *)

(** X12.  The compose file and the configuration type agree: no option is
    declared twice in [Configuration]; every variable that the compose file
    passes to the [council_daemon] container is a declared option; the
    value it passes for [PUBSUB_SERVICE] is one of the two values of
    [PubsubService], namely [rabbitmq], and the three RabbitMQ options are
    passed while none of the Kafka options is. *)
Theorem compose_matches_Configuration :
  NoDup (map fst Configuration)
  /\ forallb (fun entry => recognized (fst entry)) council_daemon_environment
     = true
  /\ (exists service,
        passed_value council_daemon_environment "PUBSUB_SERVICE" = Some service /\
        service = "rabbitmq" /\ In service PubsubService)
  /\ forallb (passes council_daemon_environment)
       ["RABBITMQ_URL"; "RABBITMQ_LOGIN"; "RABBITMQ_PASSCODE"] = true
  /\ existsb (passes council_daemon_environment)
       ["KAFKA_CLIENT_ID"; "BROKER_TOPIC"; "KAFKA_BROKER_ADDRESS_1";
        "KAFKA_BROKER_ADDRESS_2"; "KAFKA_SSL"; "KAFKA_SASL_MECHANISM";
        "KAFKA_USERNAME"; "KAFKA_PASSWORD"] = false.
Proof.
  split; [| split; [reflexivity | split; [| split; reflexivity]]].
  - cbn. repeat (constructor;
                 [cbn; intros H;
                  repeat (destruct H as [H | H]; [discriminate H |]); exact H |]).
    constructor.
  - exists "rabbitmq". split; [reflexivity |]. split; [reflexivity |].
    left. reflexivity.
Qed.
